(** * Circuit breaker of the PD client (client/circuit_breaker/circuit_breaker.go)

    A shallow embedding of the breaker's state machine and of the two
    call-wrapping entry points, [ExecuteAny] and [Execute], followed by the
    properties the specification states about them.

    Conventions of the embedding.
    - [uint32] values are integers of [Z]; every Go operation that can leave
      the range is followed by an explicit reduction modulo 2^32.
    - [time.Time] is a number of nanoseconds counted from the zero [Time];
      [time.Duration] is a number of nanoseconds.  [time.Now()] is an
      argument of the functions that read the clock.
    - [*State] pointers are addresses into a store of [State] objects owned
      by the breaker.  [newState] allocates a fresh address, [pendingCount++]
      and the outcome counters update the object in place, and the staleness
      test [cb.state == state] compares addresses.
    - A Go function that may panic is a computation in a state and panic
      monad; [defer]/[recover] is a handler on the panic branch.
    - The mutex serialises [onRequest] and [onResult]; each is one atomic
      step here.  What other goroutines (or the wrapped function itself) do
      to the breaker between admission and recording is covered by letting
      the wrapped call transform the whole machine state. *)

From stdpp Require Import base numbers list strings.
From Stdlib Require Import ZArith Lia Ascii.

Local Open Scope Z_scope.

(** ** Machine integers, time *)

Definition uint32 (z : Z) : Z := z mod 2 ^ 32.

Module time.
Definition Time : Type := Z.
Definition Duration : Type := Z.

Definition Second : Duration := 1000000000.

(** The zero value of [time.Time] ([var end time.Time]). *)
Definition zero : Time := 0.

Definition Add (t : Time) (d : Duration) : Time := t + d.

Definition Before (t u : Time) : bool := t <? u.

(** [uint32(d.Seconds())]: [Seconds] is [float64(d/Second) +
    float64(d%Second)/1e9], and the conversion to [uint32] drops the
    fraction.  For [0 <= d] below 2^24 seconds ([WholeSeconds] below) the
    floating-point sum stays under the next whole second, so the result is
    the truncated quotient.  From 2^24 seconds on the sum can round up to the
    next whole second, and outside the range of [uint32] Go leaves the
    conversion to the implementation: there this definition is not the
    code's value, and what is stated of the code through it carries
    [WholeSeconds]. *)
Definition SecondsU32 (d : Duration) : Z := uint32 (d ÷ Second).

(** The durations on which [SecondsU32] is exactly what Go computes. *)
Definition WholeSeconds (d : Duration) : Prop := 0 ≤ d < 2 ^ 24 * Second.
End time.

(** ** Data model *)

(** [Overloading] is a Go [int]; [No] and [Yes] are its two named values, and
    [State.onResult] has a default branch for every other value. *)
Definition Overloading : Type := Z.
Definition No : Overloading := 0.
Definition Yes : Overloading := 1.

Record Settings : Type := mkSettings {
  ErrorRateThresholdPct : Z;
  MinQPSForOpen : Z;
  ErrorRateWindow : time.Duration;
  CoolDownInterval : time.Duration;
  HalfOpenSuccessCount : Z
}.

(** [StateType]: the three constants are the only values [newState] is ever
    called with (its default branch panics), so no [State] object carries
    another one. *)
Inductive StateType : Type := StateClosed | StateOpen | StateHalfOpen.

Definition StateType_String (s : StateType) : string :=
  match s with
  | StateClosed => "closed"
  | StateOpen => "open"
  | StateHalfOpen => "half-open"
  end.

(** A [State] object.  Its back pointer [cb] always designates the breaker
    that created it and is the breaker the methods run on. *)
Record State : Type := mkState {
  stateType : StateType;
  end_ : time.Time;
  pendingCount : Z;
  successCount : Z;
  failureCount : Z
}.

Definition ptr : Type := nat.

(** [errors.New("circuit breaker is open")] is allocated once; any other
    error value comes from the caller. *)
Inductive error : Type :=
| ErrOpenState
| CallerError (msg : string).

Definition ErrOpenState_message : string := "circuit breaker is open".

(** The breaker: configuration, the store of [State] objects it has created,
    the address of the current one, and the number of [Inc()] calls made on
    each of its three Prometheus counters. *)
Record CircuitBreaker : Type := mkCircuitBreaker {
  config : Settings;
  name : string;
  heap : list State;
  state : ptr;
  successCounter : Z;
  failureCounter : Z;
  fastFailCounter : Z
}.

Definition set_config (f : Settings → Settings) (cb : CircuitBreaker) : CircuitBreaker :=
  mkCircuitBreaker (f (config cb)) (name cb) (heap cb) (state cb)
    (successCounter cb) (failureCounter cb) (fastFailCounter cb).

Definition set_heap (h : list State) (cb : CircuitBreaker) : CircuitBreaker :=
  mkCircuitBreaker (config cb) (name cb) h (state cb)
    (successCounter cb) (failureCounter cb) (fastFailCounter cb).

Definition set_state (p : ptr) (cb : CircuitBreaker) : CircuitBreaker :=
  mkCircuitBreaker (config cb) (name cb) (heap cb) p
    (successCounter cb) (failureCounter cb) (fastFailCounter cb).

Definition successCounter_Inc (cb : CircuitBreaker) : CircuitBreaker :=
  mkCircuitBreaker (config cb) (name cb) (heap cb) (state cb)
    (successCounter cb + 1) (failureCounter cb) (fastFailCounter cb).

Definition fastFailCounter_Inc (cb : CircuitBreaker) : CircuitBreaker :=
  mkCircuitBreaker (config cb) (name cb) (heap cb) (state cb)
    (successCounter cb) (failureCounter cb) (fastFailCounter cb + 1).

(** The object the breaker currently points to. *)
Definition current (cb : CircuitBreaker) : option State := heap cb !! state cb.

(** ** Panics and the monad of breaker code *)

Inductive PanicValue : Type :=
| DivideByZero                (* runtime error: integer divide by zero *)
| UnknownState                (* panic("unknown state") *)
| NilDereference              (* a pointer outside the store *)
| NilTypeAssertion            (* result.(T) on a nil interface *)
| CallerPanic (v : string).   (* a panic raised by the wrapped function *)

Inductive Res (A : Type) : Type :=
| Ret (a : A)
| Panic (e : PanicValue).
Arguments Ret {A} a.
Arguments Panic {A} e.

Definition M (Σ A : Type) : Type := Σ → Res A * Σ.

#[global] Instance M_ret {Σ} : MRet (M Σ) := λ A a σ, (Ret a, σ).

#[global] Instance M_bind {Σ} : MBind (M Σ) := λ A B k m σ,
  match m σ with
  | (Ret a, σ') => k a σ'
  | (Panic e, σ') => (Panic e, σ')
  end.

Definition panic {Σ A} (e : PanicValue) : M Σ A := λ σ, (Panic e, σ).
Definition gets {Σ A} (f : Σ → A) : M Σ A := λ σ, (Ret (f σ), σ).
Definition modify {Σ} (f : Σ → Σ) : M Σ unit := λ σ, (Ret tt, f σ).

(** [defer func() { e := recover(); if e != nil { h(e) } }()] around [body]:
    the handler runs on the state the panic left behind.  (A panic value is
    never nil: since Go 1.21 [panic(nil)] raises a [*runtime.PanicNilError].) *)
Definition defer_recover {Σ A} (h : PanicValue → M Σ A) (body : M Σ A) : M Σ A :=
  λ σ, match body σ with
       | (Panic e, σ') => h e σ'
       | r => r
       end.

(** Reading and writing a [State] object through its address. *)
Definition deref (p : ptr) : M CircuitBreaker State := λ cb,
  match heap cb !! p with
  | Some st => (Ret st, cb)
  | None => (Panic NilDereference, cb)
  end.

Definition update (p : ptr) (f : State → State) : M CircuitBreaker unit :=
  st ← deref p; modify (λ cb, set_heap (<[p := f st]> (heap cb)) cb).

(** Integer division on [uint32]; Go panics on a zero divisor. *)
Definition div32 {Σ} (a b : Z) : M Σ Z :=
  if b =? 0 then panic DivideByZero else mret (a / b).

(** ** newState *)

Definition newStateValue (cfg : Settings) (now : time.Time) (ty : StateType) : State :=
  match ty with
  | StateClosed => mkState StateClosed (time.Add now (ErrorRateWindow cfg)) 0 0 0
  | StateOpen => mkState StateOpen (time.Add now (CoolDownInterval cfg)) 0 0 0
  | StateHalfOpen => mkState StateHalfOpen time.zero 1 0 0
  end.

Definition newState (now : time.Time) (ty : StateType) : M CircuitBreaker ptr := λ cb,
  (Ret (length (heap cb)),
   set_heap (heap cb ++ [newStateValue (config cb) now ty]) cb).

(** ** State.onRequest: the admission evaluation *)

Definition incPending (st : State) : State :=
  mkState (stateType st) (end_ st) (uint32 (pendingCount st + 1))
    (successCount st) (failureCount st).

Definition incSuccess (st : State) : State :=
  mkState (stateType st) (end_ st) (pendingCount st)
    (uint32 (successCount st + 1)) (failureCount st).

Definition incFailure (st : State) : State :=
  mkState (stateType st) (end_ st) (pendingCount st)
    (successCount st) (uint32 (failureCount st + 1)).

(** [total := s.failureCount + s.successCount] *)
Definition windowTotal (st : State) : Z :=
  uint32 (failureCount st + successCount st).

(** The condition of the [if] on the evaluated window, with the operands as
    Go computes them. *)
Definition tripCondition (cfg : Settings) (total observedErrorRatePct : Z) : bool :=
  (0 <? ErrorRateThresholdPct cfg)
  && (uint32 (time.SecondsU32 (ErrorRateWindow cfg) * MinQPSForOpen cfg) <=? total)
  && (ErrorRateThresholdPct cfg <=? observedErrorRatePct).

Definition State_onRequest (s : ptr) (now : time.Time)
  : M CircuitBreaker (ptr * option error) :=
  st ← deref s;
  cfg ← gets config;
  match stateType st with
  | StateClosed =>
      if time.Before (end_ st) now then
        let total := windowTotal st in
        observedErrorRatePct ← div32 (uint32 (failureCount st * 100)) total;
        if tripCondition cfg total observedErrorRatePct then
          modify fastFailCounter_Inc;;
          p ← newState now StateOpen;
          mret (p, Some ErrOpenState)
        else
          p ← newState now StateClosed;
          mret (p, None)
      else mret (s, None)
  | StateOpen =>
      if time.Before (end_ st) now then
        p ← newState now StateHalfOpen;
        mret (p, None)
      else
        modify fastFailCounter_Inc;;
        mret (s, Some ErrOpenState)
  | StateHalfOpen =>
      if 0 <? failureCount st then
        modify fastFailCounter_Inc;;
        p ← newState now StateOpen;
        mret (p, Some ErrOpenState)
      else if successCount st =? HalfOpenSuccessCount cfg then
        p ← newState now StateClosed;
        mret (p, None)
      else if pendingCount st <? HalfOpenSuccessCount cfg then
        update s incPending;;
        mret (s, None)
      else
        modify fastFailCounter_Inc;;
        mret (s, Some ErrOpenState)
  end.

(** [cb.onRequest]: evaluate on the current object, then store the returned
    address.  A panic leaves [cb.state] as it was. *)
Definition cb_onRequest (now : time.Time) : M CircuitBreaker (ptr * option error) :=
  cur ← gets state;
  r ← State_onRequest cur now;
  modify (set_state r.1);;
  mret r.

(** ** Recording an outcome *)

Definition State_onResult (s : ptr) (open : Overloading) : M CircuitBreaker unit :=
  if open =? No then
    update s incSuccess;;
    modify successCounter_Inc
  else if open =? Yes then
    update s incFailure;;
    modify fastFailCounter_Inc
  else panic UnknownState.

(** [cb.onResult]: the outcome is applied only when the reporting object is
    still the current one. *)
Definition cb_onResult (s : ptr) (open : Overloading) : M CircuitBreaker unit :=
  cur ← gets state;
  if decide (cur = s) then State_onResult s open else mret tt.

(** ** Construction and reconfiguration *)

(** [NewCircuitBreaker].  The three counters are children of the
    process-wide [m.CircuitBreakerCounters], which is not part of this file
    and shares a child between breakers of the same label; the fields here
    count the [Inc()] calls made through this breaker, so they start at 0,
    and nothing is stated about the values Prometheus reports. *)
Definition NewCircuitBreaker (now : time.Time) (nm : string) (st : Settings) : CircuitBreaker :=
  mkCircuitBreaker st nm [newStateValue st now StateClosed] 0%nat 0 0 0.

Definition ChangeSettings (apply : Settings → Settings) : M CircuitBreaker unit :=
  modify (set_config apply).

(** ** Interface values and the result type *)

(** An [interface{}] holding either nothing or a dynamic value.  The values
    that reach [Execute] were all boxed from [T]. *)
Inductive any (V : Type) : Type :=
| nil_any
| box (v : V).
Arguments nil_any {V}.
Arguments box {V} v.

(** What the breaker needs to know of the type parameter [T]: its zero value
    and, when [T] is itself an interface type, which of its values is the nil
    interface (converting that one to [interface{}] gives nil; for every other
    kind of type the conversion never gives nil). *)
Class GoType (T : Type) : Type := {
  zeroValue : T;
  isNilInterface : T → bool
}.

(** The nil interface value of an interface-typed [T] is its zero value. *)
Definition GoTypeLawful (T : Type) `{GoType T} : Prop :=
  ∀ x : T, isNilInterface x = true → x = zeroValue.

Definition toAny `{GoType T} (x : T) : any T :=
  if isNilInterface x then nil_any else box x.

(** [result.(T)] *)
Definition typeAssert {Σ T} (result : any T) : M Σ T :=
  match result with
  | nil_any => panic NilTypeAssertion
  | box v => mret v
  end.

(** A primitive [T], which cannot be nil. *)
#[global] Instance uint32_GoType : GoType Z :=
  {| zeroValue := 0; isNilInterface := λ _, false |}.

(** An interface-typed [T], here [error]: nil is [None]. *)
#[global] Instance error_GoType : GoType (option error) :=
  {| zeroValue := None; isNilInterface := λ x, bool_decide (x = None) |}.

(** ** ExecuteAny and Execute *)

Section Execute.
(** Whatever else the program owns besides the breaker. *)
Context {W : Type}.

Record Machine : Type := mkMachine {
  breaker : CircuitBreaker;
  world : W
}.

Definition set_breaker (cb : CircuitBreaker) (σ : Machine) : Machine :=
  mkMachine cb (world σ).

(** Run a method of the breaker inside the program. *)
Definition onBreaker {A} (m : M CircuitBreaker A) : M Machine A := λ σ,
  let '(r, cb') := m (breaker σ) in (r, set_breaker cb' σ).

(** The caller-supplied function: it returns or panics, and runs with no
  lock held. *)
Definition Call (R : Type) : Type := M Machine (R * option error * Overloading).

Definition ExecuteAny {V} (now : time.Time) (call : Call (any V))
  : M Machine (any V * option error) :=
  '(state, err) ← onBreaker (cb_onRequest now);
  match err with
  | Some e => mret (nil_any, Some e)
  | None =>
      defer_recover
        (λ e, onBreaker (cb_onResult state Yes);; panic e)
        ('(result, err, open) ← call;
         onBreaker (cb_onResult state open);;
         mret (result, err))
  end.

(** The closure [Execute] hands to [ExecuteAny]: the typed result is
  converted to [interface{}]. *)
Definition boxCall `{GoType T} (call : Call T) : Call (any T) :=
  '(res, err, open) ← call; mret (toAny res, err, open).

Definition Execute `{GoType T} (now : time.Time) (call : Call T)
  : M Machine (T * option error) :=
  '(result, err) ← ExecuteAny now (boxCall call);
  match result with
  | nil_any => mret (zeroValue, err)
  | box _ => v ← typeAssert result; mret (v, err)
  end.
End Execute.
Arguments Machine W : clear implicits.
Arguments Call W R : clear implicits.

(** ** Vocabulary of the statements *)

(** The breaker after a transition decided at [now]: a new object of type
    [ty] is appended to the store and becomes the current one; the objects
    already there are left as they are. *)
Definition transition (now : time.Time) (ty : StateType) (cb : CircuitBreaker)
  : CircuitBreaker :=
  set_state (length (heap cb))
    (set_heap (heap cb ++ [newStateValue (config cb) now ty]) cb).

(** The breaker after an outcome was applied to its current object [st]. *)
Definition recordSuccess (st : State) (cb : CircuitBreaker) : CircuitBreaker :=
  successCounter_Inc (set_heap (<[state cb := incSuccess st]> (heap cb)) cb).

Definition recordFailure (st : State) (cb : CircuitBreaker) : CircuitBreaker :=
  fastFailCounter_Inc (set_heap (<[state cb := incFailure st]> (heap cb)) cb).

(** ** Concrete breakers and calls used in the examples *)

Definition seconds (n : Z) : time.Duration := n * time.Second.

Definition demoSettings : Settings :=
  mkSettings 50 10 (seconds 10) (seconds 30) 3.

(** A breaker created at time 0. *)
Definition demoBreaker : CircuitBreaker := NewCircuitBreaker 0 "pd" demoSettings.

(** A breaker whose initial window object has been superseded by [st]. *)
Definition breakerIn (cfg : Settings) (st : State) : CircuitBreaker :=
  mkCircuitBreaker cfg "pd" [newStateValue cfg 0 StateClosed; st] 1%nat 0 0 0.

(** Wrapped functions over a world that counts their invocations. *)
Definition returning {R} (r : R) (err : option error) (open : Overloading)
  : Call nat R :=
  λ σ, (Ret (r, err, open), mkMachine (breaker σ) (S (world σ))).

Definition panicking {R} (v : string) : Call nat R :=
  λ σ, (Panic (CallerPanic v), mkMachine (breaker σ) (S (world σ))).

Definition program (cb : CircuitBreaker) : Machine nat := mkMachine cb 0%nat.

(** ** The metric label *)

(** [replacer = strings.NewReplacer(" ", "_", "-", "_")]: every old string is
    one byte long, so Go builds a byte-to-byte table and [Replace] maps each
    byte of its argument through it. *)
Definition replacer_byte (c : Ascii.ascii) : Ascii.ascii :=
  if Ascii.eqb c " " then "_"%char
  else if Ascii.eqb c "-" then "_"%char
  else c.

Fixpoint replacer_Replace (s : string) : string :=
  match s with
  | EmptyString => EmptyString
  | String c rest => String (replacer_byte c) (replacer_Replace rest)
  end.

(** [metricName := replacer.Replace(name)], the first label of the three
    counters. *)
Definition metricName (cb : CircuitBreaker) : string := replacer_Replace (name cb).

(** ** Sequences of calls on one breaker *)

(** What the goroutines of a program can do to a breaker, one locked step
    at a time: evaluate a request, report an outcome through some address,
    change the settings. *)
Inductive Event : Type :=
| Request (now : time.Time)
| Report (s : ptr) (open : Overloading)
| Change (apply : Settings → Settings).

(** The breaker a step leaves behind, whether the step returned or
    panicked. *)
Definition after (ev : Event) (cb : CircuitBreaker) : CircuitBreaker :=
  match ev with
  | Request now => (cb_onRequest now cb).2
  | Report s open => (cb_onResult s open cb).2
  | Change apply => (ChangeSettings apply cb).2
  end.

Definition afterAll (evs : list Event) (cb : CircuitBreaker) : CircuitBreaker :=
  foldl (λ cb ev, after ev cb) cb evs.

(** Requests evaluated one after the other, with what each one got. *)
Fixpoint requests (nows : list time.Time) (cb : CircuitBreaker)
  : list (Res (ptr * option error)) * CircuitBreaker :=
  match nows with
  | [] => ([], cb)
  | now :: rest =>
      let '(r, cb1) := cb_onRequest now cb in
      let '(rs, cb2) := requests rest cb1 in
      (r :: rs, cb2)
  end.

(** The current address designates an object of the store. *)
Definition wellFormed (cb : CircuitBreaker) : Prop := is_Some (current cb).

(** How many outcomes of a list carry the classification [o]. *)
Definition tally (o : Overloading) (opens : list Overloading) : Z :=
  Z.of_nat (length (filter (λ x, x = o) opens)).

(** The transitions the state machine has an arm for. *)
Definition allowedTransition (from to : StateType) : bool :=
  match from, to with
  | StateClosed, StateClosed | StateClosed, StateOpen
  | StateOpen, StateOpen | StateOpen, StateHalfOpen
  | StateHalfOpen, StateHalfOpen | StateHalfOpen, StateOpen
  | StateHalfOpen, StateClosed => true
  | _, _ => false
  end.

(** * Properties *)

(** ** Running the monad *)

Ltac unfold_monad :=
  unfold mbind, M_bind, mret, M_ret, gets, modify, panic, deref in *.

Ltac run_breaker :=
  unfold cb_onRequest, State_onRequest, cb_onResult, State_onResult,
    update, newState, div32, current, windowTotal in *;
  unfold_monad; simpl in *.

Ltac split_breaker :=
  run_breaker;
  repeat (case_match; simpl in *; unfold_monad; simpl in *; simplify_eq).

Ltac run_execute :=
  unfold Execute, ExecuteAny, boxCall, onBreaker, defer_recover, typeAssert;
  unfold_monad; simpl.

Lemma current_transition now ty cb :
  current (transition now ty cb) = Some (newStateValue (config cb) now ty).
Proof. unfold current, transition; simpl. by apply list_lookup_middle. Qed.

Lemma transition_keeps_old now ty cb (p : ptr) (st : State) :
  heap cb !! p = Some st → heap (transition now ty cb) !! p = Some st.
Proof. intros Hp. unfold transition; simpl. by apply lookup_app_l_Some. Qed.

Lemma transition_fresh now ty cb st :
  current cb = Some st → state (transition now ty cb) ≠ state cb.
Proof.
  unfold current, transition; simpl. intros Hcur Heq.
  apply lookup_lt_Some in Hcur. lia.
Qed.

Lemma before_true (t u : time.Time) : t < u → time.Before t u = true.
Proof. intros. unfold time.Before. by apply Z.ltb_lt. Qed.

Lemma before_false (t u : time.Time) : u ≤ t → time.Before t u = false.
Proof. intros. unfold time.Before. by apply Z.ltb_ge. Qed.

(** ** Half-open *)

Section HalfOpen.
Variables (now : time.Time) (cb : CircuitBreaker) (st : State).
Hypothesis Hcur : current cb = Some st.
Hypothesis Hty : stateType st = StateHalfOpen.

Lemma halfopen_failed :
  0 < failureCount st →
  cb_onRequest now cb =
    (Ret (length (heap cb), Some ErrOpenState),
     transition now StateOpen (fastFailCounter_Inc cb)).
Proof.
  intros Hf. run_breaker. rewrite Hcur, Hty.
  by rewrite (proj2 (Z.ltb_lt _ _) Hf).
Qed.

Lemma halfopen_close :
  failureCount st ≤ 0 →
  successCount st = HalfOpenSuccessCount (config cb) →
  cb_onRequest now cb =
    (Ret (length (heap cb), None), transition now StateClosed cb).
Proof.
  intros Hf Hs. run_breaker. rewrite Hcur, Hty.
  rewrite (proj2 (Z.ltb_ge _ _) Hf), (proj2 (Z.eqb_eq _ _) Hs).
  by destruct cb.
Qed.

Lemma halfopen_probe :
  failureCount st ≤ 0 →
  successCount st ≠ HalfOpenSuccessCount (config cb) →
  pendingCount st < HalfOpenSuccessCount (config cb) →
  cb_onRequest now cb =
    (Ret (state cb, None),
     set_heap (<[state cb := incPending st]> (heap cb)) cb).
Proof.
  intros Hf Hs Hp. run_breaker. rewrite Hcur, Hty.
  rewrite (proj2 (Z.ltb_ge _ _) Hf), (proj2 (Z.eqb_neq _ _) Hs),
    (proj2 (Z.ltb_lt _ _) Hp).
  simpl. by rewrite Hcur.
Qed.

Lemma halfopen_exhausted :
  failureCount st ≤ 0 →
  successCount st ≠ HalfOpenSuccessCount (config cb) →
  HalfOpenSuccessCount (config cb) ≤ pendingCount st →
  cb_onRequest now cb =
    (Ret (state cb, Some ErrOpenState), fastFailCounter_Inc cb).
Proof.
  intros Hf Hs Hp. run_breaker. rewrite Hcur, Hty.
  rewrite (proj2 (Z.ltb_ge _ _) Hf), (proj2 (Z.eqb_neq _ _) Hs),
    (proj2 (Z.ltb_ge _ _) Hp).
  by destruct cb.
Qed.
End HalfOpen.

(** ** Open *)

Section Open.
Variables (now : time.Time) (cb : CircuitBreaker) (st : State).
Hypothesis Hcur : current cb = Some st.
Hypothesis Hty : stateType st = StateOpen.

Lemma open_cooling :
  now ≤ end_ st →
  cb_onRequest now cb =
    (Ret (state cb, Some ErrOpenState), fastFailCounter_Inc cb).
Proof.
  intros Hnow. run_breaker. rewrite Hcur, Hty, before_false by done.
  by destruct cb.
Qed.

Lemma open_cooled :
  end_ st < now →
  cb_onRequest now cb =
    (Ret (length (heap cb), None), transition now StateHalfOpen cb).
Proof.
  intros Hnow. run_breaker. rewrite Hcur, Hty, before_true by done.
  by destruct cb.
Qed.
End Open.

(** ** Closed *)

Section Closed.
Variables (now : time.Time) (cb : CircuitBreaker) (st : State).
Hypothesis Hcur : current cb = Some st.
Hypothesis Hty : stateType st = StateClosed.

Lemma closed_running :
  now ≤ end_ st → cb_onRequest now cb = (Ret (state cb, None), cb).
Proof.
  intros Hnow. run_breaker. rewrite Hcur, Hty, before_false by done.
  by destruct cb.
Qed.

(** The quotient is taken before anything is tested, so a window that saw
    no outcome stops the evaluation with a run-time panic, whatever the
    settings are; [cb.state] keeps pointing to the expired object. *)
Lemma closed_elapsed_idle :
  end_ st < now → windowTotal st = 0 →
  cb_onRequest now cb = (Panic DivideByZero, cb).
Proof.
  intros Hnow Htot. run_breaker. rewrite Hcur, Hty, before_true by done.
  by rewrite Htot.
Qed.

Lemma closed_elapsed_trip :
  end_ st < now → windowTotal st ≠ 0 →
  tripCondition (config cb) (windowTotal st)
    (uint32 (failureCount st * 100) / windowTotal st) = true →
  cb_onRequest now cb =
    (Ret (length (heap cb), Some ErrOpenState),
     transition now StateOpen (fastFailCounter_Inc cb)).
Proof.
  intros Hnow Htot Htrip. run_breaker. rewrite Hcur, Hty, before_true by done.
  rewrite (proj2 (Z.eqb_neq _ _) Htot). simpl. by rewrite Htrip.
Qed.

Lemma closed_elapsed_renew :
  end_ st < now → windowTotal st ≠ 0 →
  tripCondition (config cb) (windowTotal st)
    (uint32 (failureCount st * 100) / windowTotal st) = false →
  cb_onRequest now cb =
    (Ret (length (heap cb), None), transition now StateClosed cb).
Proof.
  intros Hnow Htot Htrip. run_breaker. rewrite Hcur, Hty, before_true by done.
  rewrite (proj2 (Z.eqb_neq _ _) Htot). simpl. rewrite Htrip.
  by destruct cb.
Qed.
End Closed.

(** The three conjuncts of the trip condition, in the arithmetic of the
    code. *)
Lemma tripCondition_true cfg total pct :
  tripCondition cfg total pct = true ↔
  0 < ErrorRateThresholdPct cfg
  ∧ uint32 (time.SecondsU32 (ErrorRateWindow cfg) * MinQPSForOpen cfg) ≤ total
  ∧ ErrorRateThresholdPct cfg ≤ pct.
Proof.
  unfold tripCondition.
  rewrite !andb_true_iff, Z.ltb_lt, !Z.leb_le. tauto.
Qed.

(** With at least one outcome in the window the evaluation opens the circuit
    exactly when the trip condition holds, and renews the window otherwise. *)
Lemma closed_elapsed_decision now cb st :
  current cb = Some st → stateType st = StateClosed → end_ st < now →
  let total := windowTotal st in
  let pct := uint32 (failureCount st * 100) / total in
  total ≠ 0 →
  (cb_onRequest now cb =
     (Ret (length (heap cb), Some ErrOpenState),
      transition now StateOpen (fastFailCounter_Inc cb))
   ↔ 0 < ErrorRateThresholdPct (config cb)
     ∧ uint32 (time.SecondsU32 (ErrorRateWindow (config cb))
               * MinQPSForOpen (config cb)) ≤ total
     ∧ ErrorRateThresholdPct (config cb) ≤ pct)
  ∧ (tripCondition (config cb) total pct = false →
     cb_onRequest now cb =
       (Ret (length (heap cb), None), transition now StateClosed cb)).
Proof.
  intros Hcur Hty Hnow total pct Htot.
  split; [|by apply (closed_elapsed_renew now cb st)].
  rewrite <- tripCondition_true. fold total pct.
  destruct (tripCondition (config cb) total pct) eqn:Htrip.
  - split; [done|]. intros _. by apply (closed_elapsed_trip now cb st).
  - split; [|done]. intros Heq.
    rewrite (closed_elapsed_renew now cb st) in Heq by done. congruence.
Qed.

Lemma closed_below_min_qps now cb st :
  current cb = Some st → stateType st = StateClosed → end_ st < now →
  0 < windowTotal st →
  windowTotal st < uint32 (time.SecondsU32 (ErrorRateWindow (config cb))
                           * MinQPSForOpen (config cb)) →
  cb_onRequest now cb =
    (Ret (length (heap cb), None), transition now StateClosed cb).
Proof.
  intros Hcur Hty Hnow Hpos Hlt.
  apply (closed_elapsed_renew now cb st); try done; [lia|].
  unfold tripCondition.
  rewrite (proj2 (Z.leb_gt _ _) Hlt). by rewrite andb_false_r.
Qed.

Lemma closed_threshold_zero now cb st :
  current cb = Some st → stateType st = StateClosed → end_ st < now →
  windowTotal st ≠ 0 →
  ErrorRateThresholdPct (config cb) = 0 →
  cb_onRequest now cb =
    (Ret (length (heap cb), None), transition now StateClosed cb).
Proof.
  intros Hcur Hty Hnow Htot Hthr.
  apply (closed_elapsed_renew now cb st); try done.
  unfold tripCondition. by rewrite Hthr.
Qed.

(** ** Recording *)

Lemma onResult_stale (p : ptr) open cb :
  p ≠ state cb → cb_onResult p open cb = (Ret tt, cb).
Proof. intros Hp. run_breaker. by rewrite decide_False. Qed.

Lemma onResult_No cb st :
  current cb = Some st →
  cb_onResult (state cb) No cb = (Ret tt, recordSuccess st cb).
Proof. intros Hcur. run_breaker. by rewrite decide_True, Hcur. Qed.

Lemma onResult_Yes cb st :
  current cb = Some st →
  cb_onResult (state cb) Yes cb = (Ret tt, recordFailure st cb).
Proof. intros Hcur. run_breaker. by rewrite decide_True, Hcur. Qed.

Lemma onResult_unknown cb st open :
  current cb = Some st → open ≠ No → open ≠ Yes →
  cb_onResult (state cb) open cb = (Panic UnknownState, cb).
Proof.
  intros Hcur HNo HYes. run_breaker. rewrite decide_True by done.
  by rewrite (proj2 (Z.eqb_neq _ _) HNo), (proj2 (Z.eqb_neq _ _) HYes).
Qed.

Lemma onResult_changes_only_current (p : ptr) open cb :
  (cb_onResult p open cb).2 ≠ cb → p = state cb.
Proof.
  intros Hne. destruct (decide (p = state cb)) as [|Hp]; [done|].
  by rewrite onResult_stale in Hne.
Qed.

Lemma current_recordFailure st cb :
  current cb = Some st → current (recordFailure st cb) = Some (incFailure st).
Proof.
  unfold current, recordFailure; simpl. intros Hcur.
  apply list_lookup_insert_eq. by eapply lookup_lt_Some.
Qed.

Lemma current_recordSuccess st cb :
  current cb = Some st → current (recordSuccess st cb) = Some (incSuccess st).
Proof.
  unfold current, recordSuccess; simpl. intros Hcur.
  apply list_lookup_insert_eq. by eapply lookup_lt_Some.
Qed.

(** ** What every admission evaluation preserves *)

(** The only error the state machine produces is the sentinel. *)
Lemma onRequest_error now cb p e cb' :
  cb_onRequest now cb = (Ret (p, Some e), cb') → e = ErrOpenState.
Proof. intros H. by split_breaker. Qed.

(** The returned address is the new current one and designates an object. *)
Lemma onRequest_current now cb p err cb' :
  cb_onRequest now cb = (Ret (p, err), cb') →
  state cb' = p ∧ is_Some (heap cb' !! p).
Proof.
  intros H. split_breaker; simpl; (split; [done|]);
    rewrite ?length_insert, ?lookup_app_r, ?Nat.sub_diag by done;
    try by eexists.
  apply lookup_lt_is_Some. rewrite length_insert. by eapply lookup_lt_Some.
Qed.

(** A panic of the evaluation leaves the breaker untouched. *)
Lemma onRequest_panic now cb e cb' :
  cb_onRequest now cb = (Panic e, cb') → cb' = cb.
Proof. intros H. by split_breaker. Qed.

(** The counter labelled "failure" is written by no method. *)
Lemma onRequest_failureCounter now cb :
  failureCounter (cb_onRequest now cb).2 = failureCounter cb.
Proof. by split_breaker. Qed.

Lemma onResult_failureCounter p open cb :
  failureCounter (cb_onResult p open cb).2 = failureCounter cb.
Proof. by split_breaker. Qed.

(** ** The call wrappers *)

Section Wrappers.
Context {W : Type}.
Implicit Types (σ : Machine W) (cb : CircuitBreaker) (p : ptr).

Lemma set_breaker_id σ : set_breaker (breaker σ) σ = σ.
Proof. by destruct σ. Qed.

Lemma ExecuteAny_rejected {V} now (call : Call W (any V)) σ p e cb' :
  cb_onRequest now (breaker σ) = (Ret (p, Some e), cb') →
  ExecuteAny now call σ = (Ret (nil_any, Some e), set_breaker cb' σ).
Proof. intros Hreq. run_execute. by rewrite Hreq. Qed.

Lemma ExecuteAny_request_panics {V} now (call : Call W (any V)) σ e cb' :
  cb_onRequest now (breaker σ) = (Panic e, cb') →
  ExecuteAny now call σ = (Panic e, set_breaker cb' σ).
Proof. intros Hreq. run_execute. by rewrite Hreq. Qed.

Lemma ExecuteAny_returns {V} now (call : Call W (any V)) σ p cb1
    result err open σ2 cb3 :
  cb_onRequest now (breaker σ) = (Ret (p, None), cb1) →
  call (set_breaker cb1 σ) = (Ret (result, err, open), σ2) →
  cb_onResult p open (breaker σ2) = (Ret tt, cb3) →
  ExecuteAny now call σ = (Ret (result, err), set_breaker cb3 σ2).
Proof.
  intros Hreq Hcall Hres. run_execute. rewrite Hreq; simpl.
  rewrite Hcall; simpl. by rewrite Hres.
Qed.

Lemma ExecuteAny_call_panics {V} now (call : Call W (any V)) σ p cb1 e σ2 cb3 :
  cb_onRequest now (breaker σ) = (Ret (p, None), cb1) →
  call (set_breaker cb1 σ) = (Panic e, σ2) →
  cb_onResult p Yes (breaker σ2) = (Ret tt, cb3) →
  ExecuteAny now call σ = (Panic e, set_breaker cb3 σ2).
Proof.
  intros Hreq Hcall Hres. run_execute. rewrite Hreq; simpl.
  rewrite Hcall; simpl. by rewrite Hres.
Qed.

(** A transition made while the call was in flight: the report goes to an
    object that is no longer current, and the breaker stays as the call
    left it. *)
Lemma ExecuteAny_stale {V} now (call : Call W (any V)) σ p cb1
    result err open σ2 :
  cb_onRequest now (breaker σ) = (Ret (p, None), cb1) →
  call (set_breaker cb1 σ) = (Ret (result, err, open), σ2) →
  state (breaker σ2) ≠ p →
  ExecuteAny now call σ = (Ret (result, err), σ2).
Proof.
  intros Hreq Hcall Hp.
  rewrite (ExecuteAny_returns now call σ p cb1 result err open σ2 (breaker σ2));
    try done.
  - by rewrite set_breaker_id.
  - by apply onResult_stale.
Qed.

(** An [Overloading] value other than [No] and [Yes] makes [State.onResult]
    panic inside [ExecuteAny], below the deferred handler, which then
    records a failure. *)
Lemma ExecuteAny_unknown_overloading {V} now (call : Call W (any V)) σ p cb1
    result err open σ2 st :
  cb_onRequest now (breaker σ) = (Ret (p, None), cb1) →
  call (set_breaker cb1 σ) = (Ret (result, err, open), σ2) →
  state (breaker σ2) = p → current (breaker σ2) = Some st →
  open ≠ No → open ≠ Yes →
  ExecuteAny now call σ =
    (Panic UnknownState, set_breaker (recordFailure st (breaker σ2)) σ2).
Proof.
  intros Hreq Hcall Hp Hcur HNo HYes. run_execute. rewrite Hreq; simpl.
  rewrite Hcall; simpl. subst p.
  rewrite (onResult_unknown _ st) by done. simpl.
  rewrite set_breaker_id. by rewrite (onResult_Yes _ st).
Qed.

(** No path through [ExecuteAny] writes the "failure" counter: it changes
    only if the wrapped function changes it. *)
Lemma ExecuteAny_failureCounter {V} now (call : Call W (any V)) σ :
  (∀ σ1, failureCounter (breaker (call σ1).2) = failureCounter (breaker σ1)) →
  failureCounter (breaker (ExecuteAny now call σ).2)
  = failureCounter (breaker σ).
Proof.
  intros Hcall. run_execute.
  pose proof (onRequest_failureCounter now (breaker σ)) as Hreq.
  destruct (cb_onRequest now (breaker σ)) as [[[p [e|]]|e] cb1]; simpl in *;
    try done.
  specialize (Hcall (set_breaker cb1 σ)).
  destruct (call (set_breaker cb1 σ)) as [[[[result err] open]|e] σ2];
    simpl in *.
  - pose proof (onResult_failureCounter p open (breaker σ2)) as Hres.
    destruct (cb_onResult p open (breaker σ2)) as [[[]|e] cb3]; simpl in *;
      [congruence|].
    pose proof (onResult_failureCounter p Yes cb3) as Hres'.
    destruct (cb_onResult p Yes cb3) as [[[]|e'] cb4]; simpl in *; congruence.
  - pose proof (onResult_failureCounter p Yes (breaker σ2)) as Hres.
    destruct (cb_onResult p Yes (breaker σ2)) as [[[]|e'] cb3]; simpl in *;
      congruence.
Qed.

(** Boxing a typed result and reading it back the way [Execute] does gives
    the result itself. *)
Lemma toAny_roundtrip `{GoType T} (x : T) :
  GoTypeLawful T →
  match toAny x with nil_any => zeroValue | box v => v end = x.
Proof.
  intros Hlaw. unfold toAny.
  destruct (isNilInterface x) eqn:Hnil; [|done]. symmetry. by apply Hlaw.
Qed.

(** The typed wrapper adds nothing to what [ExecuteAny] did except the
    conversion of the result. *)
Lemma Execute_of_nil `{GoType T} now (call : Call W T) σ err σ' :
  ExecuteAny now (boxCall call) σ = (Ret (nil_any, err), σ') →
  Execute now call σ = (Ret (zeroValue, err), σ').
Proof. intros Hany. unfold Execute. unfold_monad. by rewrite Hany. Qed.

Lemma Execute_of_box `{GoType T} now (call : Call W T) σ v err σ' :
  ExecuteAny now (boxCall call) σ = (Ret (box v, err), σ') →
  Execute now call σ = (Ret (v, err), σ').
Proof. intros Hany. unfold Execute. unfold_monad. by rewrite Hany. Qed.

Lemma Execute_of_panic `{GoType T} now (call : Call W T) σ e σ' :
  ExecuteAny now (boxCall call) σ = (Panic e, σ') →
  Execute now call σ = (Panic e, σ').
Proof. intros Hany. unfold Execute. unfold_monad. by rewrite Hany. Qed.

Lemma Execute_panic_inv `{GoType T} now (call : Call W T) σ e σ' :
  Execute now call σ = (Panic e, σ') →
  ExecuteAny now (boxCall call) σ = (Panic e, σ').
Proof.
  unfold Execute. unfold_monad.
  destruct (ExecuteAny now (boxCall call) σ) as [[[[|v] err]|e0] σ0];
    simpl; congruence.
Qed.
End Wrappers.

(** * The claims of the specification *)

(** ** Closed windows *)

(** C1, on the code as it is: at the first request after an idle window the
    code departs from the claim.  A breaker created at time 0 with a
    ten-second window has recorded nothing when a request arrives after the
    window's end, so [total] is 0.  The claim asks for a fresh Closed window
    and for the request to go through; the evaluation stops instead with
    the integer-divide-by-zero panic, the wrapped function is not run, and the
    breaker stays on the expired object, so the next request faults too. *)
Theorem C1_idle_window_divides_by_zero :
  let now := seconds 10 + 1 in
  let σ := program demoBreaker in
  current demoBreaker = Some (mkState StateClosed (seconds 10) 0 0 0)
  ∧ cb_onRequest now demoBreaker = (Panic DivideByZero, demoBreaker)
  ∧ Execute now (returning 7 None No) σ = (Panic DivideByZero, σ)
  ∧ Execute (now + seconds 60) (returning 7 None No) σ
    = (Panic DivideByZero, σ).
Proof. vm_compute. by repeat split. Qed.

(** C2, on the code as it is: an overloaded outcome, and a panic of the
    wrapped function, increment the fast-fail counter, not the failure
    counter, which stays at 0; one counter moves per call, but it is never
    the one the claim names for these two cases. *)
Theorem C2_overload_increments_fast_fail :
  let σ := program demoBreaker in
  let counters (σ' : Machine nat) :=
    (successCounter (breaker σ'), failureCounter (breaker σ'),
     fastFailCounter (breaker σ')) in
  (Execute 5 (returning 7 None Yes) σ).1 = Ret (7, None)
  ∧ counters (Execute 5 (returning 7 None Yes) σ).2 = (0, 0, 1)
  ∧ (Execute 5 (panicking "boom") σ).1 = Panic (CallerPanic "boom")
  ∧ counters (Execute 5 (panicking "boom") σ).2 = (0, 0, 1)
  ∧ counters (Execute 5 (returning 7 None No) σ).2 = (1, 0, 0).
Proof. vm_compute. by repeat split. Qed.

(** C3, on the code as it is: with tripping disabled
    ([ErrorRateThresholdPct = 0]) and a total of 0, which is below
    [ErrorRateWindow.seconds * MinQPSForOpen = 100], the claim's "otherwise"
    branch applies: a fresh Closed window, the request let through.  The
    evaluation does neither that nor a trip: it panics on the quotient
    [failureCount * 100 / total] and leaves the breaker where it was. *)
Theorem C3_idle_window_is_not_renewed :
  let cfg := mkSettings 0 10 (seconds 10) (seconds 30) 3 in
  let cb := NewCircuitBreaker 0 "pd" cfg in
  let now := seconds 10 + 1 in
  current cb = Some (mkState StateClosed (seconds 10) 0 0 0)
  ∧ time.SecondsU32 (ErrorRateWindow cfg) * MinQPSForOpen cfg = 100
  ∧ cb_onRequest now cb = (Panic DivideByZero, cb)
  ∧ cb_onRequest now cb
    ≠ (Ret (state (transition now StateClosed cb), None),
       transition now StateClosed cb).
Proof. vm_compute. by repeat split. Qed.

(** ** Half-open and open sojourns *)

(** C4: the admission evaluation of a HalfOpen sojourn.  A recorded failure
    sends the breaker back to Open with deadline [now + CoolDownInterval],
    rejecting the request and counting a fast-fail; otherwise
    [successCount = HalfOpenSuccessCount] starts a fresh Closed sojourn with
    zeroed counters and lets the request through; otherwise a free probe
    slot ([pendingCount < HalfOpenSuccessCount]) is taken in the same object,
    whose [pendingCount] goes up by one (a [uint32] increment) while its
    other fields stay; otherwise the request is rejected, a fast-fail is
    counted and the object stays as it is. *)
Theorem C4_halfopen_evaluation now cb st :
  current cb = Some st → stateType st = StateHalfOpen →
  let n := HalfOpenSuccessCount (config cb) in
  let reopened := transition now StateOpen (fastFailCounter_Inc cb) in
  let closed := transition now StateClosed cb in
  let probed := set_heap (<[state cb := incPending st]> (heap cb)) cb in
  (0 < failureCount st →
     cb_onRequest now cb = (Ret (state reopened, Some ErrOpenState), reopened)
     ∧ current reopened
       = Some (mkState StateOpen (now + CoolDownInterval (config cb)) 0 0 0)
     ∧ fastFailCounter reopened = fastFailCounter cb + 1)
  ∧ (¬ 0 < failureCount st → successCount st = n →
     cb_onRequest now cb = (Ret (state closed, None), closed)
     ∧ current closed
       = Some (mkState StateClosed (now + ErrorRateWindow (config cb)) 0 0 0)
     ∧ fastFailCounter closed = fastFailCounter cb)
  ∧ (¬ 0 < failureCount st → successCount st ≠ n → pendingCount st < n →
     cb_onRequest now cb = (Ret (state cb, None), probed)
     ∧ current probed
       = Some (mkState StateHalfOpen (end_ st) (uint32 (pendingCount st + 1))
                 (successCount st) (failureCount st))
     ∧ (0 ≤ pendingCount st → n < 2 ^ 32 →
        uint32 (pendingCount st + 1) = pendingCount st + 1)
     ∧ fastFailCounter probed = fastFailCounter cb)
  ∧ (¬ 0 < failureCount st → successCount st ≠ n → ¬ pendingCount st < n →
     cb_onRequest now cb
     = (Ret (state cb, Some ErrOpenState), fastFailCounter_Inc cb)
     ∧ current (fastFailCounter_Inc cb) = Some st
     ∧ fastFailCounter (fastFailCounter_Inc cb) = fastFailCounter cb + 1).
Proof.
  intros Hcur Hty n reopened closed probed.
  split; [|split; [|split]].
  - intros Hf. split; [|split; [apply current_transition|done]].
    by apply (halfopen_failed now cb st).
  - intros Hf Hs. split; [|split; [apply current_transition|done]].
    apply (halfopen_close now cb st); try done. lia.
  - intros Hf Hs Hp. split; [|split; [|split; [|done]]].
    + apply (halfopen_probe now cb st); try done. lia.
    + unfold probed, current. simpl.
      rewrite list_lookup_insert_eq by (by eapply lookup_lt_Some).
      unfold incPending. by rewrite Hty.
    + intros Hp0 Hn. unfold uint32. apply Z.mod_small. lia.
  - intros Hf Hs Hp. split; [|done].
    apply (halfopen_exhausted now cb st); try done; lia.
Qed.

Lemma C4_halfopen_evaluation_witness :
  let probing (pending success failure : Z) :=
    mkState StateHalfOpen time.zero pending success failure in
  let run (st : State) := cb_onRequest 7 (breakerIn demoSettings st) in
  (0 < failureCount (probing 1 0 1)
   ∧ (run (probing 1 0 1)).1 = Ret (2%nat, Some ErrOpenState))
  ∧ (successCount (probing 3 3 0) = HalfOpenSuccessCount demoSettings
     ∧ (run (probing 3 3 0)).1 = Ret (2%nat, None))
  ∧ (pendingCount (probing 1 0 0) < HalfOpenSuccessCount demoSettings
     ∧ (run (probing 1 0 0)).1 = Ret (1%nat, None)
     ∧ current (run (probing 1 0 0)).2 = Some (probing 2 0 0))
  ∧ (¬ pendingCount (probing 3 2 0) < HalfOpenSuccessCount demoSettings
     ∧ (run (probing 3 2 0)).1 = Ret (1%nat, Some ErrOpenState)
     ∧ current (run (probing 3 2 0)).2 = Some (probing 3 2 0)).
Proof.
  intros probing run.
  assert (Hspec : ∀ p s f, _ ∧ _ ∧ _ ∧ _) by
    (intros p s f;
     exact (C4_halfopen_evaluation 7 (breakerIn demoSettings (probing p s f))
              (probing p s f) eq_refl eq_refl)).
  split; [|split; [|split]]; (split; [simpl; lia|]); unfold run.
  - destruct (Hspec 1 0 1) as (H & _). simpl in H.
    destruct H as [Heq _]; [lia|]. by rewrite Heq.
  - destruct (Hspec 3 3 0) as (_ & H & _). simpl in H.
    destruct H as [Heq _]; [lia|reflexivity|]. by rewrite Heq.
  - destruct (Hspec 1 0 0) as (_ & _ & H & _).
    destruct H as (Heq & Hcur & Hinc & _); [simpl; lia..|].
    rewrite Heq. split; [reflexivity|].
    rewrite Hinc in Hcur by (simpl; lia). exact Hcur.
  - destruct (Hspec 3 2 0) as (_ & _ & _ & H).
    destruct H as (Heq & Hcur & _); [simpl; lia..|].
    rewrite Heq. split; [reflexivity|exact Hcur].
Defined.

(** C5, as amended: while Open.  As long as the clock has not passed the
    cooldown deadline ([now <= end], the deadline instant included) a
    request is rejected with the sentinel, the fast-fail counter goes up by
    one, and neither the current object nor any other field of the breaker
    changes.  The first request evaluated strictly after the deadline
    ([end < now]) goes through as a probe: it meets the Open object, and the
    breaker moves to a new HalfOpen object whose [pendingCount] is 1 and
    whose outcome counters are 0. *)
Theorem C5_open_evaluation now cb st :
  current cb = Some st → stateType st = StateOpen →
  let probing := transition now StateHalfOpen cb in
  (now ≤ end_ st →
     cb_onRequest now cb
     = (Ret (state cb, Some ErrOpenState), fastFailCounter_Inc cb)
     ∧ current (fastFailCounter_Inc cb) = Some st
     ∧ fastFailCounter (fastFailCounter_Inc cb) = fastFailCounter cb + 1)
  ∧ (end_ st < now →
     cb_onRequest now cb = (Ret (state probing, None), probing)
     ∧ current probing = Some (mkState StateHalfOpen time.zero 1 0 0)
     ∧ fastFailCounter probing = fastFailCounter cb).
Proof.
  intros Hcur Hty probing. split.
  - intros Hnow. split; [|done]. by apply (open_cooling now cb st).
  - intros Hnow. split; [|split; [apply current_transition|done]].
    by apply (open_cooled now cb st).
Qed.

Lemma C5_open_evaluation_witness :
  let st := mkState StateOpen (seconds 40) 0 0 0 in
  let cb := breakerIn demoSettings st in
  (seconds 39 ≤ end_ st
   ∧ (cb_onRequest (seconds 39) cb).1 = Ret (1%nat, Some ErrOpenState)
   ∧ current (cb_onRequest (seconds 39) cb).2 = Some st)
  ∧ (end_ st < seconds 41
     ∧ (cb_onRequest (seconds 41) cb).1 = Ret (2%nat, None)
     ∧ current (cb_onRequest (seconds 41) cb).2
       = Some (mkState StateHalfOpen time.zero 1 0 0)).
Proof.
  intros st cb.
  assert (Hlate : end_ st < seconds 41) by (vm_compute; reflexivity).
  assert (Hearly : seconds 39 ≤ end_ st) by (vm_compute; discriminate).
  split; (split; [done|]).
  - destruct (C5_open_evaluation (seconds 39) cb st eq_refl eq_refl)
      as [H _].
    destruct (H Hearly) as (Heq & Hsame & _). by rewrite Heq.
  - destruct (C5_open_evaluation (seconds 41) cb st eq_refl eq_refl)
      as [_ H].
    destruct (H Hlate) as (Heq & Hnew & _). by rewrite Heq.
Defined.

(** C5 as stated fails at the deadline instant.  The specification's test
    for a cooldown still running is [now < end]; at [now = end] it is false,
    so the claim's second half applies and asks for a probe and a HalfOpen
    state.  The code tests [end.Before(now)], which is false too, and
    rejects: the breaker stays on the Open object. *)
Lemma C5_rejects_at_the_deadline :
  let st := mkState StateOpen (seconds 40) 0 0 0 in
  let cb := breakerIn demoSettings st in
  let now := seconds 40 in
  current cb = Some st
  ∧ ¬ now < end_ st
  ∧ cb_onRequest now cb
    = (Ret (state cb, Some ErrOpenState), fastFailCounter_Inc cb)
  ∧ current (cb_onRequest now cb).2 = Some st
  ∧ ¬ (∃ p cb' st',
         cb_onRequest now cb = (Ret (p, None), cb')
         ∧ current cb' = Some st' ∧ stateType st' = StateHalfOpen).
Proof.
  intros st cb now.
  split; [reflexivity|]. split; [by vm_compute|].
  split; [reflexivity|]. split; [reflexivity|].
  intros (p & cb' & st' & Heq & _). vm_compute in Heq. discriminate.
Qed.

(** C9: with [HalfOpenSuccessCount = 0], an evaluation that meets a HalfOpen
    object on which no outcome was recorded ([successCount = 0],
    [failureCount = 0]) closes the circuit at once: a fresh Closed sojourn
    with deadline [now + ErrorRateWindow] and zeroed counters becomes
    current and the request goes through. *)
Theorem C9_zero_probe_budget_closes now cb st :
  current cb = Some st → stateType st = StateHalfOpen →
  HalfOpenSuccessCount (config cb) = 0 →
  successCount st = 0 → failureCount st = 0 →
  let closed := transition now StateClosed cb in
  cb_onRequest now cb = (Ret (state closed, None), closed)
  ∧ current closed
    = Some (mkState StateClosed (now + ErrorRateWindow (config cb)) 0 0 0)
  ∧ fastFailCounter closed = fastFailCounter cb.
Proof.
  intros Hcur Hty Hn Hs Hf closed.
  split; [|split; [apply current_transition|done]].
  apply (halfopen_close now cb st); try done; lia.
Qed.

Lemma C9_zero_probe_budget_closes_witness :
  let cfg := mkSettings 50 10 (seconds 10) (seconds 30) 0 in
  let cooled := breakerIn cfg (mkState StateOpen (seconds 40) 0 0 0) in
  let probing := (cb_onRequest (seconds 41) cooled).2 in
  current probing = Some (mkState StateHalfOpen time.zero 1 0 0)
  ∧ (cb_onRequest (seconds 42) probing).1 = Ret (3%nat, None)
  ∧ current (cb_onRequest (seconds 42) probing).2
    = Some (mkState StateClosed (seconds 52) 0 0 0).
Proof.
  intros cfg cooled probing. split; [reflexivity|].
  destruct (C9_zero_probe_budget_closes (seconds 42) probing
              (mkState StateHalfOpen time.zero 1 0 0)
              eq_refl eq_refl eq_refl eq_refl eq_refl) as (Heq & Hcur & _).
  rewrite Heq. split; [reflexivity|]. exact Hcur.
Defined.

(** ** Recording outcomes *)

(** C6: an outcome reported by an object that is not the breaker's current
    one changes nothing at all, so the counters of the current object stay
    as they are; put the other way round, whenever a report changes the
    breaker, the reporting object is the current one. *)
Theorem C6_stale_outcome_dropped (p : ptr) (open : Overloading) cb :
  (p ≠ state cb →
     cb_onResult p open cb = (Ret tt, cb)
     ∧ current (cb_onResult p open cb).2 = current cb)
  ∧ ((cb_onResult p open cb).2 ≠ cb → p = state cb).
Proof.
  split.
  - intros Hp. by rewrite onResult_stale.
  - apply onResult_changes_only_current.
Qed.

Lemma C6_stale_outcome_dropped_witness :
  let cb := breakerIn demoSettings (mkState StateClosed (seconds 20) 0 4 1) in
  (0%nat ≠ state cb
   ∧ cb_onResult 0%nat Yes cb = (Ret tt, cb)
   ∧ current (cb_onResult 0%nat Yes cb).2
     = Some (mkState StateClosed (seconds 20) 0 4 1))
  ∧ ((cb_onResult 1%nat Yes cb).2 ≠ cb ∧ 1%nat = state cb).
Proof.
  intros cb.
  assert (Hstale : 0%nat ≠ state cb) by (vm_compute; discriminate).
  assert (Hlive : (cb_onResult 1%nat Yes cb).2 ≠ cb)
    by (vm_compute; discriminate).
  split; (split; [done|]).
  - destruct (C6_stale_outcome_dropped 0%nat Yes cb) as [H _].
    destruct (H Hstale) as [Heq Hcur]. split; [exact Heq|]. by rewrite Hcur.
  - destruct (C6_stale_outcome_dropped 1%nat Yes cb) as [_ H].
    exact (H Hlive).
Defined.

(** ** The wrappers *)

Section WrapperClaims.
Context {W : Type}.
Implicit Types (σ : Machine W) (cb : CircuitBreaker) (p : ptr).

(** C7: when the admission evaluation rejects the request, [ExecuteAny]
    returns the nil result and [Execute] the zero value of [T], both with
    the one sentinel [ErrOpenState]; the wrapped function is not run: the
    outcome is the same for every function, and the machine is left exactly
    as the evaluation left it, the world outside the breaker untouched. *)
Theorem C7_rejection_returns_sentinel `{GoType T} now (call call' : Call W T)
    σ p e cb' :
  cb_onRequest now (breaker σ) = (Ret (p, Some e), cb') →
  e = ErrOpenState
  ∧ ExecuteAny now (boxCall call) σ
    = (Ret (nil_any, Some ErrOpenState), set_breaker cb' σ)
  ∧ Execute now call σ
    = (Ret (zeroValue, Some ErrOpenState), set_breaker cb' σ)
  ∧ Execute now call' σ = Execute now call σ
  ∧ world (Execute now call σ).2 = world σ.
Proof.
  intros Hreq.
  assert (e = ErrOpenState) as -> by (by eapply onRequest_error).
  assert (Hany : ∀ c : Call W T,
    ExecuteAny now (boxCall c) σ
    = (Ret (nil_any, Some ErrOpenState), set_breaker cb' σ))
    by (intros c; by eapply ExecuteAny_rejected).
  assert (Hexe : ∀ c : Call W T,
    Execute now c σ = (Ret (zeroValue, Some ErrOpenState), set_breaker cb' σ))
    by (intros c; apply Execute_of_nil, Hany).
  split; [done|]. split; [apply Hany|]. split; [apply Hexe|].
  split; [by rewrite !Hexe|]. by rewrite Hexe.
Qed.

(** C8, as amended: the request was let through by the object [p] and the
    wrapped function panics with [e].  The call to [ExecuteAny] always ends
    in the very same panic [e]: the breaker neither suppresses nor converts
    it.  Before that, the failure is reported through [p]: if [p] is still
    the current object, its [failureCount] goes up by one (modulo 2^32) and
    its other fields stay; if [p] has been superseded while the call was in
    flight, nothing is recorded and the machine stays as the panic left
    it. *)
Theorem C8_panic_recorded_then_propagated {V} now (call : Call W (any V))
    σ p cb1 e σ2 :
  cb_onRequest now (breaker σ) = (Ret (p, None), cb1) →
  call (set_breaker cb1 σ) = (Panic e, σ2) →
  wellFormed (breaker σ2) →
  (ExecuteAny now call σ).1 = Panic e
  ∧ (∀ st, state (breaker σ2) = p → current (breaker σ2) = Some st →
       ExecuteAny now call σ
       = (Panic e, set_breaker (recordFailure st (breaker σ2)) σ2)
       ∧ current (recordFailure st (breaker σ2))
         = Some (mkState (stateType st) (end_ st) (pendingCount st)
                   (successCount st) (uint32 (failureCount st + 1))))
  ∧ (state (breaker σ2) ≠ p → ExecuteAny now call σ = (Panic e, σ2)).
Proof.
  intros Hreq Hcall [st2 Hcur2].
  assert (Hlive : ∀ st, state (breaker σ2) = p →
            current (breaker σ2) = Some st →
            ExecuteAny now call σ
            = (Panic e, set_breaker (recordFailure st (breaker σ2)) σ2)).
  { intros st Hp Hcur. eapply ExecuteAny_call_panics; [done..|].
    subst p. by apply onResult_Yes. }
  assert (Hstale : state (breaker σ2) ≠ p →
            ExecuteAny now call σ = (Panic e, σ2)).
  { intros Hp.
    rewrite (ExecuteAny_call_panics now call σ p cb1 e σ2 (breaker σ2));
      try done.
    - by rewrite set_breaker_id.
    - by apply onResult_stale. }
  split; [|split; [|exact Hstale]].
  - destruct (decide (state (breaker σ2) = p)) as [Hp|Hp].
    + by rewrite (Hlive st2 Hp Hcur2).
    + by rewrite (Hstale Hp).
  - intros st Hp Hcur. split; [by apply Hlive|].
    by rewrite (current_recordFailure st (breaker σ2) Hcur).
Qed.

(** C10: when [ExecuteAny] hands back a nil result, [Execute] returns the
    zero value of [T] with the same error; this is the case of every
    rejection; and [Execute] ends in a panic only when [ExecuteAny] did, so
    the type assertion is never applied to a nil result. *)
Theorem C10_nil_result_gives_zero_value `{GoType T} now (call : Call W T) σ :
  (∀ err σ',
     ExecuteAny now (boxCall call) σ = (Ret (nil_any, err), σ') →
     Execute now call σ = (Ret (zeroValue, err), σ'))
  ∧ (∀ p e cb',
     cb_onRequest now (breaker σ) = (Ret (p, Some e), cb') →
     ExecuteAny now (boxCall call) σ
     = (Ret (nil_any, Some e), set_breaker cb' σ)
     ∧ Execute now call σ = (Ret (zeroValue, Some e), set_breaker cb' σ))
  ∧ (∀ e σ',
     Execute now call σ = (Panic e, σ') →
     ExecuteAny now (boxCall call) σ = (Panic e, σ')).
Proof.
  split; [|split].
  - intros err σ'. apply Execute_of_nil.
  - intros p e cb' Hreq.
    assert (Hany := ExecuteAny_rejected now (boxCall call) σ p e cb' Hreq).
    split; [done|]. by apply Execute_of_nil.
  - intros e σ'. apply Execute_panic_inv.
Qed.
End WrapperClaims.

Lemma C7_rejection_returns_sentinel_witness :
  let cb := breakerIn demoSettings (mkState StateOpen (seconds 40) 0 0 0) in
  let σ := program cb in
  (cb_onRequest (seconds 39) cb).1 = Ret (1%nat, Some ErrOpenState)
  ∧ Execute (seconds 39) (returning 7 None No) σ
    = (Ret (0, Some ErrOpenState), program (fastFailCounter_Inc cb))
  ∧ world (Execute (seconds 39) (returning 7 None No) σ).2 = 0%nat.
Proof.
  intros cb σ. split; [reflexivity|].
  destruct (C7_rejection_returns_sentinel (seconds 39)
              (returning 7 None No) (panicking "boom") σ
              1%nat ErrOpenState (fastFailCounter_Inc cb) eq_refl)
    as (_ & _ & Hexe & _ & Hworld).
  split; [exact Hexe|exact Hworld].
Defined.

Lemma C8_panic_recorded_then_propagated_witness :
  let σ := program demoBreaker in
  let call := panicking (R:=any Z) "boom" in
  (cb_onRequest 5 demoBreaker).1 = Ret (0%nat, None)
  ∧ wellFormed demoBreaker
  ∧ ExecuteAny 5 call σ
    = (Panic (CallerPanic "boom"),
       mkMachine
         (recordFailure (mkState StateClosed (seconds 10) 0 0 0) demoBreaker)
         1%nat)
  ∧ current (breaker (ExecuteAny 5 call σ).2)
    = Some (mkState StateClosed (seconds 10) 0 0 1).
Proof.
  intros σ call. split; [reflexivity|].
  assert (Hwf : wellFormed demoBreaker) by (by eexists).
  split; [exact Hwf|].
  destruct (C8_panic_recorded_then_propagated 5 call σ 0%nat demoBreaker
              (CallerPanic "boom") (mkMachine demoBreaker 1%nat)
              eq_refl eq_refl Hwf) as (_ & Hlive & _).
  destruct (Hlive (mkState StateClosed (seconds 10) 0 0 0) eq_refl eq_refl)
    as [Heq Hcur].
  split; [exact Heq|]. rewrite Heq. exact Hcur.
Defined.

(** C8 as stated fails when the admitting object is superseded while the
    call is in flight.  The request is let through at 5s by the Closed
    object at address 1; before the wrapped function panics, another
    request, evaluated at 11s, trips the breaker and makes a new Open
    object current.  The panic reaches the caller unchanged, but the
    deferred report finds [cb.state] different from the admitting object
    and records nothing: that object still shows 60 failures and the
    counters are those the trip left. *)
Lemma C8_no_failure_recorded_on_superseded_state :
  let admitting := mkState StateClosed (seconds 10) 0 40 60 in
  let cb := breakerIn demoSettings admitting in
  let tripped := (cb_onRequest (seconds 11) cb).2 in
  let call : Call nat (any Z) :=
    λ σ, (Panic (CallerPanic "boom"),
          mkMachine (cb_onRequest (seconds 11) (breaker σ)).2 (S (world σ))) in
  (cb_onRequest (seconds 5) cb).1 = Ret (1%nat, None)
  ∧ heap cb !! 1%nat = Some admitting
  ∧ ExecuteAny (seconds 5) call (program cb)
    = (Panic (CallerPanic "boom"), mkMachine tripped 1%nat)
  ∧ heap tripped !! 1%nat = Some admitting
  ∧ failureCount admitting ≠ uint32 (failureCount admitting + 1).
Proof.
  intros admitting cb tripped call.
  split; [reflexivity|]. split; [reflexivity|].
  split; [reflexivity|]. split; [reflexivity|]. by vm_compute.
Qed.

Lemma C10_nil_result_gives_zero_value_witness :
  let cb := breakerIn demoSettings (mkState StateOpen (seconds 40) 0 0 0) in
  let σ := program cb in
  let call : Call nat (option error) :=
    returning (Some (CallerError "timeout")) None Yes in
  (cb_onRequest (seconds 39) cb).1 = Ret (1%nat, Some ErrOpenState)
  ∧ Execute (seconds 39) call σ
    = (Ret (None, Some ErrOpenState), program (fastFailCounter_Inc cb))
  ∧ Execute 5 (returning (None : option error) None No) (program demoBreaker)
    = (Ret (None, None),
       mkMachine
         (recordSuccess (mkState StateClosed (seconds 10) 0 0 0) demoBreaker)
         1%nat).
Proof.
  intros cb σ call. split; [reflexivity|].
  destruct (C10_nil_result_gives_zero_value (seconds 39) call σ)
    as (_ & Hrej & _).
  destruct (Hrej 1%nat ErrOpenState (fastFailCounter_Inc cb) eq_refl)
    as [_ Hexe].
  split; [exact Hexe|].
  destruct (C10_nil_result_gives_zero_value 5
              (returning (None : option error) None No) (program demoBreaker))
    as (Hnil & _ & _).
  apply (Hnil None); reflexivity.
Defined.

(** * Further properties of the code *)

(** ** One admission evaluation *)

(** The evaluation panics in exactly one situation: a Closed object whose
    window has elapsed and whose total is 0; the panic is then the
    divide-by-zero one. *)
Lemma onRequest_panics_iff now cb st :
  current cb = Some st →
  (∃ e, (cb_onRequest now cb).1 = Panic e)
  ↔ stateType st = StateClosed ∧ end_ st < now ∧ windowTotal st = 0.
Proof.
  intros Hcur. split.
  - intros [e He]. destruct (stateType st) eqn:Hty.
    + destruct (Z.le_gt_cases now (end_ st)) as [Hle|Hlt].
      { by rewrite (closed_running now cb st) in He. }
      destruct (decide (windowTotal st = 0)) as [|Hne]; [done|].
      destruct (tripCondition (config cb) (windowTotal st)
                  (uint32 (failureCount st * 100) / windowTotal st)) eqn:Ht.
      * by rewrite (closed_elapsed_trip now cb st) in He.
      * by rewrite (closed_elapsed_renew now cb st) in He.
    + destruct (Z.le_gt_cases now (end_ st)) as [Hle|Hlt].
      * by rewrite (open_cooling now cb st) in He.
      * by rewrite (open_cooled now cb st) in He.
    + destruct (Z.lt_ge_cases 0 (failureCount st)) as [Hf|Hf].
      { by rewrite (halfopen_failed now cb st) in He. }
      destruct (decide (successCount st = HalfOpenSuccessCount (config cb)))
        as [Hs|Hs].
      { by rewrite (halfopen_close now cb st) in He. }
      destruct (Z.lt_ge_cases (pendingCount st)
                  (HalfOpenSuccessCount (config cb))) as [Hp|Hp].
      * by rewrite (halfopen_probe now cb st) in He.
      * by rewrite (halfopen_exhausted now cb st) in He.
  - intros (Hty & Hnow & Htot). exists DivideByZero.
    by rewrite (closed_elapsed_idle now cb st).
Qed.

(** X1: on a breaker whose current object is [st], the admission evaluation
    panics if and only if [st] is Closed, its window has elapsed and its
    total is 0; the panic is the integer divide by zero and the breaker is
    left exactly as it was. *)
Theorem X1_evaluation_faults_only_on_idle_window now cb st :
  current cb = Some st →
  ((∃ e, (cb_onRequest now cb).1 = Panic e)
   ↔ stateType st = StateClosed ∧ end_ st < now ∧ windowTotal st = 0)
  ∧ (∀ e cb', cb_onRequest now cb = (Panic e, cb') →
       e = DivideByZero ∧ cb' = cb).
Proof.
  intros Hcur. split; [by apply onRequest_panics_iff|].
  intros e cb' Heq.
  assert (Hp : ∃ e0, (cb_onRequest now cb).1 = Panic e0)
    by (exists e; by rewrite Heq).
  apply (onRequest_panics_iff now cb st Hcur) in Hp as (Hty & Hnow & Htot).
  rewrite (closed_elapsed_idle now cb st) in Heq by done.
  by simplify_eq.
Qed.

Lemma X1_evaluation_faults_only_on_idle_window_witness :
  let idle := mkState StateClosed (seconds 10) 0 0 0 in
  let busy := mkState StateClosed (seconds 10) 0 3 1 in
  (current demoBreaker = Some idle
   ∧ cb_onRequest (seconds 11) demoBreaker = (Panic DivideByZero, demoBreaker))
  ∧ (current (breakerIn demoSettings busy) = Some busy
     ∧ ¬ ∃ e, (cb_onRequest (seconds 11) (breakerIn demoSettings busy)).1
              = Panic e).
Proof.
  intros idle busy. split; (split; [reflexivity|]).
  - destruct (X1_evaluation_faults_only_on_idle_window (seconds 11)
                demoBreaker idle eq_refl) as [Hiff _].
    destruct (proj2 Hiff) as [e He].
    { repeat split. }
    destruct (cb_onRequest (seconds 11) demoBreaker) as [r cb'] eqn:Heq.
    simpl in He. subst r.
    destruct (X1_evaluation_faults_only_on_idle_window (seconds 11)
                demoBreaker idle eq_refl) as [_ Hval].
    destruct (Hval e cb' Heq) as [-> ->]. reflexivity.
  - destruct (X1_evaluation_faults_only_on_idle_window (seconds 11)
                (breakerIn demoSettings busy) busy eq_refl) as [Hiff _].
    intros Hp. apply Hiff in Hp as (_ & _ & Htot). vm_compute in Htot.
    discriminate.
Defined.

(** Every way an evaluation can end, by the type of the object it meets. *)
Lemma onRequest_cases now cb st :
  current cb = Some st →
  let r := cb_onRequest now cb in
  (stateType st = StateClosed ∧ r = (Panic DivideByZero, cb))
  ∨ (stateType st = StateClosed ∧ r = (Ret (state cb, None), cb))
  ∨ (stateType st ≠ StateClosed
     ∧ r = (Ret (state cb, Some ErrOpenState), fastFailCounter_Inc cb))
  ∨ (stateType st = StateHalfOpen
     ∧ r = (Ret (state cb, None),
            set_heap (<[state cb := incPending st]> (heap cb)) cb))
  ∨ (stateType st ≠ StateOpen
     ∧ r = (Ret (length (heap cb), None), transition now StateClosed cb))
  ∨ (stateType st = StateOpen
     ∧ r = (Ret (length (heap cb), None), transition now StateHalfOpen cb))
  ∨ (stateType st ≠ StateOpen
     ∧ r = (Ret (length (heap cb), Some ErrOpenState),
            transition now StateOpen (fastFailCounter_Inc cb))).
Proof.
  intros Hcur r. subst r. destruct (stateType st) eqn:Hty.
  - destruct (Z.le_gt_cases now (end_ st)) as [Hle|Hlt].
    { right; left. by rewrite (closed_running now cb st). }
    destruct (decide (windowTotal st = 0)) as [Hz|Hne].
    { left. by rewrite (closed_elapsed_idle now cb st). }
    destruct (tripCondition (config cb) (windowTotal st)
                (uint32 (failureCount st * 100) / windowTotal st)) eqn:Ht.
    + do 6 right. by rewrite (closed_elapsed_trip now cb st).
    + do 4 right; left. by rewrite (closed_elapsed_renew now cb st).
  - destruct (Z.le_gt_cases now (end_ st)) as [Hle|Hlt].
    + do 2 right; left. by rewrite (open_cooling now cb st).
    + do 5 right; left. by rewrite (open_cooled now cb st).
  - destruct (Z.lt_ge_cases 0 (failureCount st)) as [Hf|Hf].
    { do 6 right. by rewrite (halfopen_failed now cb st). }
    destruct (decide (successCount st = HalfOpenSuccessCount (config cb)))
      as [Hs|Hs].
    { do 4 right; left. by rewrite (halfopen_close now cb st). }
    destruct (Z.lt_ge_cases (pendingCount st)
                (HalfOpenSuccessCount (config cb))) as [Hp|Hp].
    + do 3 right; left. by rewrite (halfopen_probe now cb st).
    + do 2 right; left. by rewrite (halfopen_exhausted now cb st).
Qed.

Lemma current_set_heap_insert cb st st' :
  current cb = Some st →
  current (set_heap (<[state cb := st']> (heap cb)) cb) = Some st'.
Proof.
  unfold current; simpl. intros Hcur.
  apply list_lookup_insert_eq. by eapply lookup_lt_Some.
Qed.

Ltac onRequest_by_cases now cb st Hcur :=
  destruct (onRequest_cases now cb st Hcur)
    as [[Hty Hr]|[[Hty Hr]|[[Hty Hr]|[[Hty Hr]|[[Hty Hr]|[[Hty Hr]|[Hty Hr]]]]]]];
  simpl in Hr.

(** X2: the verdict agrees with the state the breaker is left in: a request
    is never rejected by an evaluation that leaves the breaker Closed, and
    never let through by one that leaves it Open; and the step taken is one
    of the seven arms of the state machine (never Closed to HalfOpen, never
    Open to Closed). *)
Theorem X2_verdict_agrees_with_state now cb st p err cb' :
  current cb = Some st →
  cb_onRequest now cb = (Ret (p, err), cb') →
  ∃ st', current cb' = Some st'
    ∧ allowedTransition (stateType st) (stateType st') = true
    ∧ (stateType st' = StateClosed → err = None)
    ∧ (stateType st' = StateOpen → err = Some ErrOpenState).
Proof.
  intros Hcur Heq.
  onRequest_by_cases now cb st Hcur; rewrite Hr in Heq; simplify_eq.
  - exists st. rewrite Hty. by repeat split.
  - exists st. split; [done|]. destruct (stateType st); by repeat split.
  - exists (incPending st). split; [by apply (current_set_heap_insert cb st)|].
    simpl. rewrite Hty. by repeat split.
  - eexists. split; [apply current_transition|]. simpl.
    destruct (stateType st); by repeat split.
  - eexists. split; [apply current_transition|]. simpl.
    rewrite Hty. by repeat split.
  - eexists. split; [apply current_transition|]. simpl.
    destruct (stateType st); by repeat split.
Qed.

Lemma X2_verdict_agrees_with_state_witness :
  let st := mkState StateClosed (seconds 10) 0 40 60 in
  let cb := breakerIn demoSettings st in
  ∃ p cb' st',
    current cb = Some st
    ∧ cb_onRequest (seconds 11) cb = (Ret (p, Some ErrOpenState), cb')
    ∧ current cb' = Some st'
    ∧ stateType st' ≠ StateClosed.
Proof.
  intros st cb.
  destruct (cb_onRequest (seconds 11) cb) as [r cb'] eqn:Heq.
  assert (Hr : r = Ret (2%nat, Some ErrOpenState))
    by (apply (f_equal fst) in Heq; vm_compute in Heq; by subst r).
  subst r.
  destruct (X2_verdict_agrees_with_state (seconds 11) cb st 2%nat
              (Some ErrOpenState) cb' eq_refl Heq)
    as (st' & Hcur' & _ & Hclosed & _).
  exists 2%nat, cb', st'. repeat split; try done.
  intros Hty. by specialize (Hclosed Hty).
Defined.

Lemma evaluation_accounts now cb st p err cb' :
  current cb = Some st →
  cb_onRequest now cb = (Ret (p, err), cb') →
  fastFailCounter cb'
  = fastFailCounter cb + match err with Some _ => 1 | None => 0 end
  ∧ successCounter cb' = successCounter cb
  ∧ failureCounter cb' = failureCounter cb
  ∧ config cb' = config cb.
Proof.
  intros Hcur Heq.
  onRequest_by_cases now cb st Hcur; rewrite Hr in Heq; simplify_eq;
    simpl; repeat split; lia.
Qed.

(** X3: what one evaluation does to the observability counters and to the
    settings: a rejection adds exactly one to fast-fail, a request let
    through adds nothing, and the success counter, the failure counter and
    the settings are never touched. *)
Theorem X3_evaluation_counts_rejections now cb st p err cb' :
  current cb = Some st →
  cb_onRequest now cb = (Ret (p, err), cb') →
  fastFailCounter cb'
  = fastFailCounter cb + match err with Some _ => 1 | None => 0 end
  ∧ successCounter cb' = successCounter cb
  ∧ failureCounter cb' = failureCounter cb
  ∧ config cb' = config cb.
Proof. apply evaluation_accounts. Qed.

Lemma X3_evaluation_counts_rejections_witness :
  let st := mkState StateOpen (seconds 40) 0 0 0 in
  let cb := breakerIn demoSettings st in
  current cb = Some st
  ∧ (cb_onRequest (seconds 39) cb).1 = Ret (1%nat, Some ErrOpenState)
  ∧ fastFailCounter (cb_onRequest (seconds 39) cb).2 = 1
  ∧ successCounter (cb_onRequest (seconds 39) cb).2 = 0.
Proof.
  intros st cb.
  destruct (cb_onRequest (seconds 39) cb) as [r cb'] eqn:Heq.
  assert (Hr : r = Ret (1%nat, Some ErrOpenState))
    by (apply (f_equal fst) in Heq; vm_compute in Heq; by subst r).
  subst r.
  destruct (X3_evaluation_counts_rejections (seconds 39) cb st 1%nat
              (Some ErrOpenState) cb' eq_refl Heq) as (Hff & Hs & _ & _).
  simpl. by repeat split.
Defined.

(** X4: an evaluation either keeps the current object or replaces it by a
    new one.  A new object is appended to the store (so every older
    object, the superseded one included, is as it was) and starts with both
    outcome counters at 0; a kept object keeps its type, its deadline and
    both outcome counters, and the store keeps its size. *)
Theorem X4_sojourns_start_from_zero now cb st p err cb' :
  current cb = Some st →
  cb_onRequest now cb = (Ret (p, err), cb') →
  state cb' = p
  ∧ (p ≠ state cb →
     p = length (heap cb)
     ∧ ∃ st', heap cb' = heap cb ++ [st']
         ∧ successCount st' = 0 ∧ failureCount st' = 0
         ∧ pendingCount st'
           = match stateType st' with StateHalfOpen => 1 | _ => 0 end)
  ∧ (p = state cb →
     length (heap cb') = length (heap cb)
     ∧ ∃ st', current cb' = Some st'
         ∧ stateType st' = stateType st ∧ end_ st' = end_ st
         ∧ successCount st' = successCount st
         ∧ failureCount st' = failureCount st).
Proof.
  intros Hcur Heq.
  assert (Hlt : (state cb < length (heap cb))%nat)
    by (by eapply lookup_lt_Some).
  onRequest_by_cases now cb st Hcur; rewrite Hr in Heq; simplify_eq;
    (split; [done|]); split; intros Hp; try done; try (simpl in Hp; lia).
  - split; [done|]. by exists st.
  - split; [done|]. by exists st.
  - split; [simpl; by rewrite length_insert|].
    exists (incPending st). split; [by apply (current_set_heap_insert cb st)|done].
  - split; [done|]. eexists. split; [done|]. by simpl.
  - split; [done|]. eexists. split; [done|]. by simpl.
  - split; [done|]. eexists. split; [done|]. by simpl.
Qed.

Lemma X4_sojourns_start_from_zero_witness :
  let st := mkState StateClosed (seconds 10) 0 40 60 in
  let cb := breakerIn demoSettings st in
  current cb = Some st
  ∧ (cb_onRequest (seconds 11) cb).1 = Ret (2%nat, Some ErrOpenState)
  ∧ heap (cb_onRequest (seconds 11) cb).2
    = heap cb ++ [mkState StateOpen (seconds 41) 0 0 0].
Proof.
  intros st cb. split; [reflexivity|].
  destruct (cb_onRequest (seconds 11) cb) as [r cb'] eqn:Heq.
  assert (Hr : r = Ret (2%nat, Some ErrOpenState))
    by (apply (f_equal fst) in Heq; vm_compute in Heq; by subst r).
  subst r. split; [reflexivity|].
  destruct (X4_sojourns_start_from_zero (seconds 11) cb st 2%nat
              (Some ErrOpenState) cb' eq_refl Heq) as (_ & Hnew & _).
  destruct Hnew as (_ & st' & Hheap & _); [by vm_compute|].
  simpl. rewrite Hheap. apply (f_equal snd) in Heq. simpl in Heq.
  subst cb'. vm_compute in Hheap. by simplify_eq.
Defined.

(** ** Sequences of steps *)

Lemma onResult_cases (s : ptr) open cb st :
  current cb = Some st →
  (cb_onResult s open cb).2 = cb
  ∨ (s = state cb ∧ open = No ∧ (cb_onResult s open cb).2 = recordSuccess st cb)
  ∨ (s = state cb ∧ open = Yes
     ∧ (cb_onResult s open cb).2 = recordFailure st cb).
Proof.
  intros Hcur. destruct (decide (s = state cb)) as [->|Hs].
  - destruct (decide (open = No)) as [->|HNo].
    { right; left. by rewrite (onResult_No cb st). }
    destruct (decide (open = Yes)) as [->|HYes].
    { right; right. by rewrite (onResult_Yes cb st). }
    left. by rewrite (onResult_unknown cb st).
  - left. by rewrite onResult_stale.
Qed.

(** One step keeps the breaker well formed, never moves the current address
    back, leaves every object other than the current one as it is, and
    moves the counters only upwards, the failure counter not at all. *)
Lemma after_step ev cb :
  wellFormed cb →
  wellFormed (after ev cb)
  ∧ (state cb ≤ state (after ev cb))%nat
  ∧ (∀ (p : ptr) (old : State),
       heap cb !! p = Some old → p ≠ state cb →
       heap (after ev cb) !! p = Some old ∧ p ≠ state (after ev cb))
  ∧ failureCounter (after ev cb) = failureCounter cb
  ∧ successCounter cb ≤ successCounter (after ev cb)
  ∧ fastFailCounter cb ≤ fastFailCounter (after ev cb).
Proof.
  intros [st Hcur].
  assert (Hlt : (state cb < length (heap cb))%nat)
    by (by eapply lookup_lt_Some).
  destruct ev as [now|s open|apply]; simpl.
  - onRequest_by_cases now cb st Hcur; rewrite Hr; simpl;
      (split; [unfold wellFormed, current; simpl;
               rewrite ?lookup_app_r, ?Nat.sub_diag by done;
               try (by eexists)|]);
      try (split; [lia|]);
      try (split; [|repeat split; lia]).
    all: try (intros p old Hp Hne; split; [|done]; done).
    all: try (intros p old Hp Hne; split;
              [by apply lookup_app_l_Some
              |apply lookup_lt_Some in Hp; lia]).
    + apply lookup_lt_is_Some. by rewrite length_insert.
    + intros p old Hp Hne. split; [|done].
      by rewrite list_lookup_insert_ne.
  - destruct (onResult_cases s open cb st Hcur)
      as [Hr|[(-> & -> & Hr)|(-> & -> & Hr)]]; rewrite Hr; simpl.
    + repeat split; try done; try lia. by exists st.
    + split; [eexists; by apply current_recordSuccess|].
      repeat split; try done; try lia.
      by rewrite list_lookup_insert_ne.
    + split; [eexists; by apply current_recordFailure|].
      repeat split; try done; try lia.
      by rewrite list_lookup_insert_ne.
  - repeat split; try done; try lia. by exists st.
Qed.

Lemma afterAll_cons ev evs cb : afterAll (ev :: evs) cb = afterAll evs (after ev cb).
Proof. done. Qed.

(** X5: once an object has been superseded it is never written again and
    never becomes current again, whatever requests, reports (through any
    address, with any classification) and settings changes follow. *)
Theorem X5_superseded_objects_are_frozen evs cb (p : ptr) (old : State) :
  wellFormed cb →
  heap cb !! p = Some old → p ≠ state cb →
  heap (afterAll evs cb) !! p = Some old ∧ p ≠ state (afterAll evs cb).
Proof.
  revert cb. induction evs as [|ev evs IH]; intros cb Hwf Hp Hne; [done|].
  rewrite afterAll_cons.
  destruct (after_step ev cb Hwf) as (Hwf' & _ & Hfrozen & _).
  destruct (Hfrozen p old Hp Hne) as [Hp' Hne'].
  by apply IH.
Qed.

Lemma X5_superseded_objects_are_frozen_witness :
  let first := mkState StateClosed (seconds 10) 0 40 60 in
  let cb := (cb_onRequest (seconds 11)
               (mkCircuitBreaker demoSettings "pd" [first] 0%nat 40 0 60)).2 in
  let evs := [Report 0%nat Yes; Request (seconds 42); Report 0%nat No;
              Change (λ _, mkSettings 0 0 0 0 0); Request (seconds 43)] in
  state cb = 1%nat
  ∧ heap (afterAll evs cb) !! 0%nat = Some first
  ∧ state (afterAll evs cb) ≠ 0%nat.
Proof.
  intros first cb evs. split; [reflexivity|].
  destruct (X5_superseded_objects_are_frozen evs cb 0%nat first) as [Hp Hne].
  - by exists (mkState StateOpen (seconds 41) 0 0 0).
  - reflexivity.
  - by vm_compute.
  - split; [exact Hp|]. intros Heq. by apply Hne.
Defined.

(** X6: along any sequence of steps the current address always designates
    an object and never moves back, the failure counter keeps its value, and
    the success and fast-fail counters never decrease. *)
Theorem X6_steps_keep_the_breaker_sound evs cb :
  wellFormed cb →
  wellFormed (afterAll evs cb)
  ∧ (state cb ≤ state (afterAll evs cb))%nat
  ∧ failureCounter (afterAll evs cb) = failureCounter cb
  ∧ successCounter cb ≤ successCounter (afterAll evs cb)
  ∧ fastFailCounter cb ≤ fastFailCounter (afterAll evs cb).
Proof.
  revert cb. induction evs as [|ev evs IH]; intros cb Hwf.
  { repeat split; try done; lia. }
  rewrite afterAll_cons.
  destruct (after_step ev cb Hwf) as (Hwf' & Hst & _ & Hf & Hs & Hff).
  destruct (IH (after ev cb) Hwf') as (Hwf'' & Hst' & Hf' & Hs' & Hff').
  repeat split; try done; lia.
Qed.

Lemma X6_steps_keep_the_breaker_sound_witness :
  let evs := [Request 5; Report 0%nat Yes; Report 0%nat 7; Report 3%nat No;
              Request (seconds 11); Change (λ _, mkSettings 0 0 0 0 0);
              Request (seconds 12)] in
  wellFormed demoBreaker
  ∧ wellFormed (afterAll evs demoBreaker)
  ∧ failureCounter (afterAll evs demoBreaker) = 0.
Proof.
  intros evs.
  assert (Hwf : wellFormed demoBreaker) by (by eexists).
  destruct (X6_steps_keep_the_breaker_sound evs demoBreaker Hwf)
    as (Hwf' & _ & Hf & _).
  by repeat split.
Defined.

(** ** Outcomes accumulated on the current object *)

Lemma uint32_range z : 0 ≤ uint32 z < 2 ^ 32.
Proof. unfold uint32. apply Z.mod_pos_bound. lia. Qed.

Lemma uint32_small z : 0 ≤ z < 2 ^ 32 → uint32 z = z.
Proof. intros. unfold uint32. by apply Z.mod_small. Qed.

Lemma uint32_add_l a b : uint32 (uint32 a + b) = uint32 (a + b).
Proof. unfold uint32. by rewrite Zplus_mod_idemp_l. Qed.

Lemma tally_nil o : tally o [] = 0.
Proof. done. Qed.

Lemma tally_cons o x opens :
  tally o (x :: opens) = (if decide (x = o) then 1 else 0) + tally o opens.
Proof.
  unfold tally. rewrite filter_cons. destruct (decide (x = o)); simpl; lia.
Qed.

Lemma tally_nonneg o opens : 0 ≤ tally o opens.
Proof. unfold tally. lia. Qed.

Lemma tally_total opens :
  Forall (λ o, o = No ∨ o = Yes) opens →
  tally No opens + tally Yes opens = Z.of_nat (length opens).
Proof.
  induction 1 as [|o opens [->| ->] _ IH]; [done|..];
    rewrite !tally_cons; simpl length;
    repeat case_decide; try done; lia.
Qed.

Lemma reports_add_up opens cb st :
  current cb = Some st →
  0 ≤ successCount st < 2 ^ 32 → 0 ≤ failureCount st < 2 ^ 32 →
  Forall (λ o, o = No ∨ o = Yes) opens →
  let cb' := afterAll (Report (state cb) <$> opens) cb in
  current cb'
  = Some (mkState (stateType st) (end_ st) (pendingCount st)
            (uint32 (successCount st + tally No opens))
            (uint32 (failureCount st + tally Yes opens)))
  ∧ state cb' = state cb
  ∧ successCounter cb' = successCounter cb + tally No opens
  ∧ fastFailCounter cb' = fastFailCounter cb + tally Yes opens
  ∧ failureCounter cb' = failureCounter cb
  ∧ config cb' = config cb.
Proof.
  intros Hcur Hs Hf Hall. revert cb st Hcur Hs Hf.
  induction Hall as [|o opens Ho _ IH]; intros cb st Hcur Hs Hf; cbv zeta.
  { simpl. rewrite !tally_nil, !Z.add_0_r, !uint32_small by done.
    destruct st; by repeat split. }
  rewrite fmap_cons, afterAll_cons, !tally_cons. simpl after.
  destruct Ho as [-> | ->].
  - rewrite (onResult_No cb st Hcur). simpl.
    pose proof (current_recordSuccess st cb Hcur) as Hcur'.
    specialize (IH (recordSuccess st cb) (incSuccess st) Hcur').
    cbv zeta in IH.
    destruct IH as (Hc & Hst & Hsc & Hff & Hfc & Hcfg);
      [apply uint32_range|done|].
    simpl in *. rewrite Hc, Hst, Hsc, Hff, Hfc, Hcfg.
    repeat case_decide; try done.
    rewrite uint32_add_l, !Z.add_0_l. repeat split; try lia.
    by rewrite Z.add_assoc.
  - rewrite (onResult_Yes cb st Hcur). simpl.
    pose proof (current_recordFailure st cb Hcur) as Hcur'.
    specialize (IH (recordFailure st cb) (incFailure st) Hcur').
    cbv zeta in IH.
    destruct IH as (Hc & Hst & Hsc & Hff & Hfc & Hcfg);
      [done|apply uint32_range|].
    simpl in *. rewrite Hc, Hst, Hsc, Hff, Hfc, Hcfg.
    repeat case_decide; try done.
    rewrite uint32_add_l, !Z.add_0_l. repeat split; try lia.
    by rewrite Z.add_assoc.
Qed.

(** X7: reports made through the current address with the classifications
    [No] and [Yes] add up on the current object and on the counters: the
    object's [successCount] and [failureCount] grow by the number of [No]
    and of [Yes] (modulo 2^32), the success counter by the number of [No],
    the fast-fail counter by the number of [Yes]; the failure counter, the
    current address, the object's type, deadline and [pendingCount], and the
    settings stay. *)
Theorem X7_reports_add_up opens cb st :
  current cb = Some st →
  0 ≤ successCount st < 2 ^ 32 → 0 ≤ failureCount st < 2 ^ 32 →
  Forall (λ o, o = No ∨ o = Yes) opens →
  let cb' := afterAll (Report (state cb) <$> opens) cb in
  current cb'
  = Some (mkState (stateType st) (end_ st) (pendingCount st)
            (uint32 (successCount st + tally No opens))
            (uint32 (failureCount st + tally Yes opens)))
  ∧ state cb' = state cb
  ∧ successCounter cb' = successCounter cb + tally No opens
  ∧ fastFailCounter cb' = fastFailCounter cb + tally Yes opens
  ∧ failureCounter cb' = failureCounter cb
  ∧ config cb' = config cb.
Proof. apply reports_add_up. Qed.

Lemma X7_reports_add_up_witness :
  let opens := [No; Yes; Yes; No; Yes] in
  let cb' := afterAll (Report 0%nat <$> opens) demoBreaker in
  Forall (λ o, o = No ∨ o = Yes) opens
  ∧ current cb' = Some (mkState StateClosed (seconds 10) 0 2 3)
  ∧ successCounter cb' = 2 ∧ fastFailCounter cb' = 3
  ∧ failureCounter cb' = 0.
Proof.
  intros opens cb'.
  assert (Hall : Forall (λ o, o = No ∨ o = Yes) opens)
    by (repeat constructor; auto).
  split; [exact Hall|].
  destruct (X7_reports_add_up opens demoBreaker
              (mkState StateClosed (seconds 10) 0 0 0) eq_refl)
    as (Hc & _ & Hs & Hff & Hf & _); [simpl; lia..|exact Hall|].
  split; [exact Hc|]. split; [exact Hs|]. split; [exact Hff|exact Hf].
Defined.

Lemma report_length (s : ptr) open cb :
  wellFormed cb →
  length (heap (after (Report s open) cb)) = length (heap cb).
Proof.
  intros [st Hcur]. simpl.
  destruct (onResult_cases s open cb st Hcur)
    as [Hr|[(_ & _ & Hr)|(_ & _ & Hr)]]; rewrite Hr; [done|..];
    simpl; by rewrite length_insert.
Qed.

Lemma reports_length (s : ptr) opens cb :
  wellFormed cb →
  length (heap (afterAll (Report s <$> opens) cb)) = length (heap cb).
Proof.
  revert cb. induction opens as [|o opens IH]; intros cb Hwf; [done|].
  rewrite fmap_cons, afterAll_cons.
  rewrite IH by (by apply after_step). by apply report_length.
Qed.

Lemma window_decision opens now cb st :
  current cb = Some st → stateType st = StateClosed →
  successCount st = 0 → failureCount st = 0 →
  Forall (λ o, o = No ∨ o = Yes) opens →
  0 < Z.of_nat (length opens) < 2 ^ 32 →
  end_ st < now →
  let n := Z.of_nat (length opens) in
  let f := tally Yes opens in
  let r := (cb_onRequest now (afterAll (Report (state cb) <$> opens) cb)).1 in
  (r = Ret (length (heap cb), Some ErrOpenState)
   ↔ 0 < ErrorRateThresholdPct (config cb)
     ∧ uint32 (time.SecondsU32 (ErrorRateWindow (config cb))
               * MinQPSForOpen (config cb)) ≤ n
     ∧ ErrorRateThresholdPct (config cb) ≤ uint32 (f * 100) / n)
  ∧ (r = Ret (length (heap cb), Some ErrOpenState)
     ∨ r = Ret (length (heap cb), None)).
Proof.
  intros Hcur Hty Hs0 Hf0 Hall Hn Hnow n f r.
  pose proof (reports_add_up opens cb st Hcur) as Hrep. cbv zeta in Hrep.
  destruct Hrep as (Hc & Hst & _ & _ & _ & Hcfg); try done; try lia.
  pose proof (tally_total opens Hall) as Htot.
  pose proof (tally_nonneg No opens) as HNo.
  pose proof (tally_nonneg Yes opens) as HYes.
  rewrite Hs0, Hf0, !Z.add_0_l in Hc.
  rewrite !uint32_small in Hc by lia.
  set (cb1 := afterAll (Report (state cb) <$> opens) cb) in *.
  set (st1 := mkState (stateType st) (end_ st) (pendingCount st)
                (tally No opens) (tally Yes opens)) in *.
  assert (Hlen : length (heap cb1) = length (heap cb))
    by (apply reports_length; by eexists).
  assert (Htotal : windowTotal st1 = n)
    by (unfold windowTotal; simpl; rewrite uint32_small; lia).
  assert (Hne : windowTotal st1 ≠ 0) by lia.
  destruct (closed_elapsed_decision now cb1 st1 Hc Hty Hnow Hne)
    as [Hiff Hrenew].
  rewrite Htotal, Hcfg, Hlen in Hiff, Hrenew. simpl in Hiff, Hrenew.
  fold f n in Hiff, Hrenew.
  destruct (tripCondition (config cb) n (uint32 (f * 100) / n)) eqn:Htrip.
  - apply tripCondition_true in Htrip.
    assert (Hr : r = Ret (length (heap cb), Some ErrOpenState))
      by (subst r; by rewrite (proj2 Hiff Htrip)).
    split; [|by left]. by split.
  - assert (Hr : r = Ret (length (heap cb), None))
      by (subst r; by rewrite (Hrenew eq_refl)).
    split; [|by right]. rewrite Hr. split; [done|].
    intros Hcond. apply tripCondition_true in Hcond. congruence.
Qed.

Lemma SecondsU32_whole d :
  time.WholeSeconds d →
  time.SecondsU32 d = d / time.Second ∧ 0 ≤ d / time.Second < 2 ^ 24.
Proof.
  unfold time.WholeSeconds, time.SecondsU32, time.Second. intros Hd.
  assert (Hq : 0 ≤ d / 1000000000 < 2 ^ 24).
  { split; [apply Z.div_pos; lia|]. apply Z.div_lt_upper_bound; lia. }
  split; [|done].
  rewrite Z.quot_div_nonneg by lia. apply uint32_small. lia.
Qed.

(** X8: a whole Closed window, end to end, for an [ErrorRateWindow] from 0
    up to 2^24 seconds (where [uint32(ErrorRateWindow.Seconds())] is the
    number of whole seconds).  On a Closed object with both outcome counters
    at 0, [n] outcomes are reported ([0 < n < 2^32], [f] of them
    overloaded), then a request arrives after the window's end.  It is
    rejected, opening the circuit, exactly when the threshold is positive,
    [n] reaches [whole seconds * MinQPSForOpen] (a [uint32] product) and
    [f * 100 / n] (with [f * 100] reduced modulo 2^32) reaches the
    threshold; otherwise it is let through.  Either way a new object
    becomes current. *)
Theorem X8_window_decision opens now cb st :
  current cb = Some st → stateType st = StateClosed →
  successCount st = 0 → failureCount st = 0 →
  Forall (λ o, o = No ∨ o = Yes) opens →
  0 < Z.of_nat (length opens) < 2 ^ 32 →
  end_ st < now →
  time.WholeSeconds (ErrorRateWindow (config cb)) →
  let n := Z.of_nat (length opens) in
  let f := tally Yes opens in
  let r := (cb_onRequest now (afterAll (Report (state cb) <$> opens) cb)).1 in
  (r = Ret (length (heap cb), Some ErrOpenState)
   ↔ 0 < ErrorRateThresholdPct (config cb)
     ∧ uint32 (ErrorRateWindow (config cb) / time.Second
               * MinQPSForOpen (config cb)) ≤ n
     ∧ ErrorRateThresholdPct (config cb) ≤ uint32 (f * 100) / n)
  ∧ (r = Ret (length (heap cb), Some ErrOpenState)
     ∨ r = Ret (length (heap cb), None)).
Proof.
  intros Hcur Hty Hs0 Hf0 Hall Hn Hnow Hwhole n f r.
  destruct (SecondsU32_whole _ Hwhole) as [<- _].
  by apply (window_decision opens now cb st).
Qed.

Lemma X8_window_decision_witness :
  let cfg := mkSettings 50 1 (seconds 1) (seconds 30) 3 in
  let cb := NewCircuitBreaker 0 "pd" cfg in
  let opens := [Yes; No; Yes; Yes; No; Yes; No; Yes; No; Yes] in
  Forall (λ o, o = No ∨ o = Yes) opens
  ∧ time.WholeSeconds (ErrorRateWindow cfg)
  ∧ tally Yes opens = 6
  ∧ (cb_onRequest (seconds 2) (afterAll (Report 0%nat <$> opens) cb)).1
    = Ret (1%nat, Some ErrOpenState).
Proof.
  intros cfg cb opens.
  assert (Hall : Forall (λ o, o = No ∨ o = Yes) opens)
    by (repeat (apply List.Forall_cons; [auto|]); apply List.Forall_nil).
  assert (Hwhole : time.WholeSeconds (ErrorRateWindow cfg))
    by (by vm_compute).
  split; [exact Hall|]. split; [exact Hwhole|]. split; [reflexivity|].
  destruct (X8_window_decision opens (seconds 2) cb
              (mkState StateClosed (seconds 1) 0 0 0)
              eq_refl eq_refl eq_refl eq_refl Hall) as [Hiff _].
  - by vm_compute.
  - by vm_compute.
  - exact Hwhole.
  - apply Hiff. by vm_compute.
Defined.

(** ** Half-open: probes and their outcomes *)

Lemma probe_outcomes_decide opens now cb st :
  current cb = Some st → stateType st = StateHalfOpen →
  successCount st = 0 → failureCount st = 0 →
  Forall (λ o, o = No ∨ o = Yes) opens →
  Z.of_nat (length opens) < 2 ^ 32 →
  let cb1 := afterAll (Report (state cb) <$> opens) cb in
  (0 < tally Yes opens →
     cb_onRequest now cb1
     = (Ret (length (heap cb), Some ErrOpenState),
        transition now StateOpen (fastFailCounter_Inc cb1)))
  ∧ (tally Yes opens = 0 →
     Z.of_nat (length opens) = HalfOpenSuccessCount (config cb) →
     cb_onRequest now cb1
     = (Ret (length (heap cb), None), transition now StateClosed cb1)).
Proof.
  intros Hcur Hty Hs0 Hf0 Hall Hn cb1.
  pose proof (reports_add_up opens cb st Hcur) as Hrep. cbv zeta in Hrep.
  destruct Hrep as (Hc & Hst & _ & _ & _ & Hcfg); try done; try lia.
  pose proof (tally_total opens Hall) as Htot.
  pose proof (tally_nonneg No opens) as HNo.
  pose proof (tally_nonneg Yes opens) as HYes.
  rewrite Hs0, Hf0, !Z.add_0_l in Hc.
  rewrite !uint32_small in Hc by lia.
  fold cb1 in Hc, Hst, Hcfg.
  assert (Hlen : length (heap cb1) = length (heap cb))
    by (apply reports_length; by eexists).
  split.
  - intros Hfail. rewrite <- Hlen.
    by apply (halfopen_failed now cb1 _ Hc).
  - intros Hnone Hall_ok. rewrite <- Hlen.
    apply (halfopen_close now cb1 _ Hc); simpl; [done|lia|].
    rewrite Hcfg. lia.
Qed.

(** X9: the outcomes of the probes decide a HalfOpen sojourn.  After any
    reports on a HalfOpen object that started with both outcome counters at
    0: if at least one was a failure, the next request is rejected and the
    breaker goes back to Open with deadline [now + CoolDownInterval]; if
    none was and their number is [HalfOpenSuccessCount], the next request
    is let through into a fresh Closed sojourn ending at
    [now + ErrorRateWindow]. *)
Theorem X9_probe_outcomes_decide opens now cb st :
  current cb = Some st → stateType st = StateHalfOpen →
  successCount st = 0 → failureCount st = 0 →
  Forall (λ o, o = No ∨ o = Yes) opens →
  Z.of_nat (length opens) < 2 ^ 32 →
  let cb1 := afterAll (Report (state cb) <$> opens) cb in
  let reopened := transition now StateOpen (fastFailCounter_Inc cb1) in
  let closed := transition now StateClosed cb1 in
  (0 < tally Yes opens →
     cb_onRequest now cb1
     = (Ret (length (heap cb), Some ErrOpenState), reopened)
     ∧ current reopened
       = Some (mkState StateOpen (now + CoolDownInterval (config cb)) 0 0 0))
  ∧ (tally Yes opens = 0 →
     Z.of_nat (length opens) = HalfOpenSuccessCount (config cb) →
     cb_onRequest now cb1 = (Ret (length (heap cb), None), closed)
     ∧ current closed
       = Some (mkState StateClosed (now + ErrorRateWindow (config cb)) 0 0 0)).
Proof.
  intros Hcur Hty Hs0 Hf0 Hall Hn cb1 reopened closed.
  pose proof (probe_outcomes_decide opens now cb st Hcur Hty Hs0 Hf0 Hall Hn)
    as [Hopen Hclose].
  pose proof (reports_add_up opens cb st Hcur) as Hrep. cbv zeta in Hrep.
  destruct Hrep as (_ & _ & _ & _ & _ & Hcfg); try done; try lia.
  fold cb1 in Hcfg.
  split.
  - intros Hfail. split; [by apply Hopen|].
    subst reopened. rewrite current_transition. simpl. by rewrite Hcfg.
  - intros Hnone Hcount. split; [by apply Hclose|].
    subst closed. rewrite current_transition. simpl. by rewrite Hcfg.
Qed.

Lemma X9_probe_outcomes_decide_witness :
  let st := mkState StateHalfOpen time.zero 1 0 0 in
  let cb := breakerIn demoSettings st in
  (0 < tally Yes [No; Yes]
   ∧ (cb_onRequest (seconds 50) (afterAll (Report (state cb) <$> [No; Yes]) cb)).1
     = Ret (2%nat, Some ErrOpenState))
  ∧ (tally Yes [No; No; No] = 0
     ∧ (cb_onRequest (seconds 50)
          (afterAll (Report (state cb) <$> [No; No; No]) cb)).1
       = Ret (2%nat, None)).
Proof.
  intros st cb. split; (split; [reflexivity|]).
  - destruct (X9_probe_outcomes_decide [No; Yes] (seconds 50) cb st
                eq_refl eq_refl eq_refl eq_refl) as [Hopen _].
    + repeat (apply List.Forall_cons; [auto|]). apply List.Forall_nil.
    + by vm_compute.
    + destruct Hopen as [Heq _]; [reflexivity|]. by rewrite Heq.
  - destruct (X9_probe_outcomes_decide [No; No; No] (seconds 50) cb st
                eq_refl eq_refl eq_refl eq_refl) as [_ Hclose].
    + repeat (apply List.Forall_cons; [auto|]). apply List.Forall_nil.
    + by vm_compute.
    + destruct Hclose as [Heq _]; [reflexivity..|]. by rewrite Heq.
Defined.

Lemma requests_app nows more cb :
  requests (nows ++ more) cb
  = ((requests nows cb).1 ++ (requests more (requests nows cb).2).1,
     (requests more (requests nows cb).2).2).
Proof.
  revert cb. induction nows as [|now nows IH]; intros cb; simpl.
  { by destruct (requests more cb). }
  destruct (cb_onRequest now cb) as [r cb1]. rewrite IH.
  destruct (requests nows cb1) as [rs cb2]. simpl.
  by destruct (requests more cb2).
Qed.

Lemma probes_pass nows cb st :
  current cb = Some st → stateType st = StateHalfOpen →
  successCount st = 0 → failureCount st = 0 →
  0 < HalfOpenSuccessCount (config cb) < 2 ^ 32 →
  0 ≤ pendingCount st →
  pendingCount st + Z.of_nat (length nows) ≤ HalfOpenSuccessCount (config cb) →
  ∃ cb', requests nows cb
         = (replicate (length nows) (Ret (state cb, None)), cb')
    ∧ state cb' = state cb ∧ config cb' = config cb
    ∧ fastFailCounter cb' = fastFailCounter cb
    ∧ current cb'
      = Some (mkState StateHalfOpen (end_ st)
                (pendingCount st + Z.of_nat (length nows)) 0 0)
    ∧ length (heap cb') = length (heap cb).
Proof.
  revert cb st. induction nows as [|now nows IH];
    intros cb st Hcur Hty Hs Hf Hn Hp Hroom.
  { exists cb. simpl. rewrite Z.add_0_r. repeat split; try done.
    rewrite Hcur. destruct st; simpl in *. by subst. }
  simpl length in *. simpl requests.
  rewrite (halfopen_probe now cb st Hcur Hty) by lia.
  set (cb1 := set_heap (<[state cb := incPending st]> (heap cb)) cb).
  assert (Hcur1 : current cb1 = Some (incPending st))
    by (by apply (current_set_heap_insert cb st)).
  assert (Hpend : pendingCount (incPending st) = pendingCount st + 1)
    by (simpl; apply uint32_small; lia).
  destruct (IH cb1 (incPending st) Hcur1 Hty Hs Hf)
    as (cb' & Hreq & Hst & Hcfg & Hff & Hc & Hlen);
    [done|lia|rewrite Hpend; simpl; lia|].
  exists cb'. rewrite Hreq. simpl in *.
  repeat split; try done.
  - rewrite Hc, Hpend. do 2 f_equal. lia.
  - by rewrite Hlen, length_insert.
Qed.

Lemma probes_refused more cb st :
  current cb = Some st → stateType st = StateHalfOpen →
  failureCount st ≤ 0 →
  successCount st ≠ HalfOpenSuccessCount (config cb) →
  HalfOpenSuccessCount (config cb) ≤ pendingCount st →
  ∃ cb', requests more cb
         = (replicate (length more) (Ret (state cb, Some ErrOpenState)), cb')
    ∧ state cb' = state cb ∧ config cb' = config cb
    ∧ fastFailCounter cb' = fastFailCounter cb + Z.of_nat (length more)
    ∧ current cb' = Some st.
Proof.
  revert cb. induction more as [|now more IH]; intros cb Hcur Hty Hf Hs Hp.
  { exists cb. simpl. repeat split; try done. lia. }
  simpl length. simpl requests.
  rewrite (halfopen_exhausted now cb st Hcur Hty) by done.
  destruct (IH (fastFailCounter_Inc cb))
    as (cb' & Hreq & Hst & Hcfg & Hff & Hc); try done.
  exists cb'. rewrite Hreq. simpl in *.
  repeat split; try done. lia.
Qed.

(** X10: the probe budget.  On a HalfOpen object with no outcome reported
    yet and [pendingCount] probes already out, the next
    [HalfOpenSuccessCount - pendingCount] requests are let through as
    probes of the same object, and every request after them is rejected
    with the sentinel, each rejection counted as a fast-fail, until an
    outcome is reported; the object ends with
    [pendingCount = HalfOpenSuccessCount]. *)
Theorem X10_probe_budget nows more cb st :
  current cb = Some st → stateType st = StateHalfOpen →
  successCount st = 0 → failureCount st = 0 →
  let n := HalfOpenSuccessCount (config cb) in
  0 < n < 2 ^ 32 → 0 ≤ pendingCount st →
  pendingCount st + Z.of_nat (length nows) = n →
  ∃ cb', requests (nows ++ more) cb
         = (replicate (length nows) (Ret (state cb, None))
            ++ replicate (length more) (Ret (state cb, Some ErrOpenState)),
            cb')
    ∧ state cb' = state cb
    ∧ fastFailCounter cb' = fastFailCounter cb + Z.of_nat (length more)
    ∧ current cb' = Some (mkState StateHalfOpen (end_ st) n 0 0).
Proof.
  intros Hcur Hty Hs Hf n Hn Hp Hroom.
  destruct (probes_pass nows cb st Hcur Hty Hs Hf Hn Hp)
    as (cb1 & Hreq1 & Hst1 & Hcfg1 & Hff1 & Hc1 & _); [fold n; lia|].
  rewrite Hroom in Hc1.
  destruct (probes_refused more cb1 _ Hc1 eq_refl)
    as (cb2 & Hreq2 & Hst2 & Hcfg2 & Hff2 & Hc2);
    simpl; rewrite ?Hcfg1; fold n; try lia.
  exists cb2. rewrite requests_app, Hreq1. simpl. rewrite Hreq2. simpl.
  rewrite Hst1 in *. repeat split; try done. lia.
Qed.

Lemma X10_probe_budget_witness :
  let st := mkState StateHalfOpen time.zero 1 0 0 in
  let cb := breakerIn demoSettings st in
  (requests [seconds 50; seconds 51; seconds 52; seconds 53] cb).1
  = [Ret (1%nat, None); Ret (1%nat, None);
     Ret (1%nat, Some ErrOpenState); Ret (1%nat, Some ErrOpenState)].
Proof.
  intros st cb.
  destruct (X10_probe_budget [seconds 50; seconds 51] [seconds 52; seconds 53]
              cb st eq_refl eq_refl eq_refl eq_refl) as (cb' & Heq & _).
  - by vm_compute.
  - by vm_compute.
  - reflexivity.
  - exact (f_equal fst Heq).
Defined.

(** ** Settings changed while a sojourn is in progress *)

Lemma change_keeps_objects apply cb :
  current (ChangeSettings apply cb).2 = current cb
  ∧ state (ChangeSettings apply cb).2 = state cb
  ∧ config (ChangeSettings apply cb).2 = apply (config cb).
Proof. done. Qed.

(** X11: deadlines are fixed when a sojourn starts, thresholds are read when
    it is evaluated.  Up to the deadline of a Closed or Open object no
    change of settings alters the verdict: Closed lets the request through
    and Open rejects it.  After a Closed window has ended with at least one
    outcome, the settings in force at that moment decide: with the threshold
    set to 0 in the meantime the circuit does not open, and the new window
    lasts the new [ErrorRateWindow]. *)
Theorem X11_settings_change_in_flight apply now cb st :
  current cb = Some st →
  let cb1 := (ChangeSettings apply cb).2 in
  (now ≤ end_ st → stateType st = StateClosed →
     cb_onRequest now cb1 = (Ret (state cb, None), cb1))
  ∧ (now ≤ end_ st → stateType st = StateOpen →
     cb_onRequest now cb1
     = (Ret (state cb, Some ErrOpenState), fastFailCounter_Inc cb1))
  ∧ (end_ st < now → stateType st = StateClosed → windowTotal st ≠ 0 →
     ErrorRateThresholdPct (apply (config cb)) = 0 →
     cb_onRequest now cb1
     = (Ret (length (heap cb), None), transition now StateClosed cb1)
     ∧ current (transition now StateClosed cb1)
       = Some (mkState StateClosed
                 (now + ErrorRateWindow (apply (config cb))) 0 0 0)).
Proof.
  intros Hcur cb1.
  assert (Hcur1 : current cb1 = Some st) by done.
  split; [|split].
  - intros Hnow Hty. by apply (closed_running now cb1 st).
  - intros Hnow Hty. by apply (open_cooling now cb1 st).
  - intros Hnow Hty Htot Hthr. split; [|apply current_transition].
    by apply (closed_threshold_zero now cb1 st).
Qed.

Lemma X11_settings_change_in_flight_witness :
  let st := mkState StateClosed (seconds 10) 0 40 60 in
  let cb := breakerIn demoSettings st in
  let off (cfg : Settings) := mkSettings 0 10 (seconds 1) (seconds 1) 3 in
  (cb_onRequest (seconds 11) cb).1 = Ret (2%nat, Some ErrOpenState)
  ∧ (cb_onRequest (seconds 11) (ChangeSettings off cb).2).1 = Ret (2%nat, None)
  ∧ current (cb_onRequest (seconds 11) (ChangeSettings off cb).2).2
    = Some (mkState StateClosed (seconds 12) 0 0 0).
Proof.
  intros st cb off. split; [reflexivity|].
  destruct (X11_settings_change_in_flight off (seconds 11) cb st eq_refl)
    as (_ & _ & H).
  destruct H as [Heq Hcur]; [by vm_compute|reflexivity|by vm_compute
                            |reflexivity|].
  rewrite Heq. split; [reflexivity|exact Hcur].
Defined.

(** ** An idle window, seen from the caller *)

Lemma idle_window_requests nows cb st :
  current cb = Some st → stateType st = StateClosed →
  windowTotal st = 0 →
  Forall (λ now, end_ st < now) nows →
  requests nows cb = (replicate (length nows) (Panic DivideByZero), cb).
Proof.
  intros Hcur Hty Htot Hall.
  induction Hall as [|now nows Hnow _ IH]; [done|].
  simpl. rewrite (closed_elapsed_idle now cb st) by done.
  by rewrite IH.
Qed.

Lemma idle_window_revived cb st open :
  current cb = Some st → windowTotal st = 0 → open = No ∨ open = Yes →
  ∃ st', current (after (Report (state cb) open) cb) = Some st'
    ∧ stateType st' = stateType st ∧ windowTotal st' = 1.
Proof.
  intros Hcur Htot Hopen.
  assert (Hone : ∀ a b, uint32 (a + b) = 0 →
            uint32 (a + uint32 (b + 1)) = 1 ∧ uint32 (uint32 (a + 1) + b) = 1).
  { intros a b Hab. unfold uint32 in *. split.
    - rewrite Zplus_mod_idemp_r, Z.add_assoc, <- Zplus_mod_idemp_l, Hab.
      done.
    - rewrite Zplus_mod_idemp_l, <- Z.add_assoc, (Z.add_comm 1 b),
        Z.add_assoc, <- Zplus_mod_idemp_l, Hab.
      done. }
  unfold windowTotal in Htot. destruct (Hone _ _ Htot) as [HNo HYes].
  simpl after. destruct Hopen as [-> | ->].
  - rewrite (onResult_No cb st Hcur). exists (incSuccess st).
    split; [by apply current_recordSuccess|]. by split.
  - rewrite (onResult_Yes cb st Hcur). exists (incFailure st).
    split; [by apply current_recordFailure|]. by split.
Qed.

(** X12: a Closed window that ends with a total of 0 disables the breaker
    until an outcome is reported.  Every request evaluated after the
    deadline panics with the integer divide by zero and leaves the breaker
    exactly as it was, for as many requests as follow one another with no
    report in between, and whatever the settings are; through [Execute] the
    wrapped function is not run and the panic reaches the caller.  One
    report [No] or [Yes] on that object (by a call let through before the
    deadline) ends this: the next evaluation does not panic. *)
Theorem X12_idle_window_disables_breaker {W} `{GoType T}
    nows now (call : Call W T) (σ : Machine W) st :
  current (breaker σ) = Some st → stateType st = StateClosed →
  windowTotal st = 0 →
  Forall (λ t, end_ st < t) nows → end_ st < now →
  requests nows (breaker σ)
  = (replicate (length nows) (Panic DivideByZero), breaker σ)
  ∧ Execute now call σ = (Panic DivideByZero, σ)
  ∧ (∀ open, open = No ∨ open = Yes →
       ¬ ∃ e, (cb_onRequest now
                 (after (Report (state (breaker σ)) open) (breaker σ))).1
              = Panic e).
Proof.
  intros Hcur Hty Htot Hall Hnow.
  split; [by apply (idle_window_requests nows _ st)|]. split.
  - apply Execute_of_panic.
    rewrite (ExecuteAny_request_panics now (boxCall call) σ DivideByZero
               (breaker σ)).
    + by rewrite set_breaker_id.
    + by apply (closed_elapsed_idle now _ st).
  - intros open Hopen Hpanic.
    destruct (idle_window_revived (breaker σ) st open Hcur Htot Hopen)
      as (st' & Hcur' & _ & Htot').
    destruct (proj1 (onRequest_panics_iff now _ st' Hcur') Hpanic)
      as (_ & _ & Hzero).
    lia.
Qed.

Lemma X12_idle_window_disables_breaker_witness :
  (requests [seconds 11; seconds 12; seconds 3600] demoBreaker).1
  = [Panic DivideByZero; Panic DivideByZero; Panic DivideByZero]
  ∧ Execute (seconds 11) (returning 7 None No) (program demoBreaker)
    = (Panic DivideByZero, program demoBreaker)
  ∧ (cb_onRequest (seconds 11) (after (Report 0%nat No) demoBreaker)).1
    = Ret (1%nat, None).
Proof.
  destruct (X12_idle_window_disables_breaker
              [seconds 11; seconds 12; seconds 3600] (seconds 11)
              (returning 7 None No) (program demoBreaker)
              (mkState StateClosed (seconds 10) 0 0 0)
              eq_refl eq_refl eq_refl) as (Hreq & Hexe & Hrevive).
  - repeat (apply List.Forall_cons; [by vm_compute|]). apply List.Forall_nil.
  - by vm_compute.
  - split; [exact (f_equal fst Hreq)|]. split; [exact Hexe|].
    specialize (Hrevive No (or_introl eq_refl)).
    destruct (cb_onRequest (seconds 11) (after (Report 0%nat No) demoBreaker))
      as [[r|e] cb'] eqn:Heq.
    + apply (f_equal fst) in Heq. vm_compute in Heq. symmetry. exact Heq.
    + exfalso. apply Hrevive. exists e. exact (f_equal fst Heq).
Defined.

(** ** Execute, from admission to recording *)

Section ExecuteProperties.
Context {W : Type}.
Implicit Types (σ : Machine W) (cb : CircuitBreaker) (p : ptr).

Lemma onResult_returns p open cb :
  wellFormed cb → open = No ∨ open = Yes →
  (cb_onResult p open cb).1 = Ret tt.
Proof.
  intros [st Hcur] Hopen. destruct (decide (p = state cb)) as [->|Hp].
  - destruct Hopen as [-> | ->].
    + by rewrite (onResult_No cb st).
    + by rewrite (onResult_Yes cb st).
  - by rewrite onResult_stale.
Qed.

Lemma boxCall_run `{GoType T} (call : Call W T) σ :
  boxCall call σ
  = match call σ with
    | (Ret (res, err, open), σ2) => (Ret (toAny res, err, open), σ2)
    | (Panic e, σ2) => (Panic e, σ2)
    end.
Proof.
  unfold boxCall. unfold_monad.
  by destruct (call σ) as [[[[res err] open]|e] σ2].
Qed.

Lemma Execute_final `{GoType T} now (call : Call W T) σ :
  (Execute now call σ).2 = (ExecuteAny now (boxCall call) σ).2.
Proof.
  unfold Execute. unfold_monad.
  by destruct (ExecuteAny now (boxCall call) σ) as [[[[|v] err]|e] σ'].
Qed.

Lemma Execute_passes_result `{GoType T} now (call : Call W T)
    σ p cb1 res err open σ2 :
  GoTypeLawful T →
  cb_onRequest now (breaker σ) = (Ret (p, None), cb1) →
  call (set_breaker cb1 σ) = (Ret (res, err, open), σ2) →
  wellFormed (breaker σ2) → open = No ∨ open = Yes →
  Execute now call σ
  = (Ret (res, err), set_breaker (cb_onResult p open (breaker σ2)).2 σ2).
Proof.
  intros Hlaw Hreq Hcall Hwf Hopen.
  pose proof (onResult_returns p open (breaker σ2) Hwf Hopen) as Hres.
  destruct (cb_onResult p open (breaker σ2)) as [r cb3] eqn:Hrec.
  simpl in Hres. subst r. simpl.
  assert (Hany : ExecuteAny now (boxCall call) σ
                 = (Ret (toAny res, err), set_breaker cb3 σ2)).
  { eapply ExecuteAny_returns; [done| |done].
    by rewrite boxCall_run, Hcall. }
  pose proof (toAny_roundtrip res Hlaw) as Hround.
  destruct (toAny res) as [|v] eqn:Hbox.
  - rewrite (Execute_of_nil now call σ err _ Hany). by rewrite Hround.
  - rewrite (Execute_of_box now call σ v err _ Hany). by rewrite Hround.
Qed.

(** X13: when the request is let through and the wrapped function returns
    [(res, err, open)] with [open] one of [No] and [Yes], [Execute] returns
    exactly [(res, err)]: the passage through [interface{}] loses nothing,
    also when [res] is a nil interface value; and the only thing done to
    the machine after the call is the report of [open] by the admitting
    object. *)
Theorem X13_execute_passes_result `{GoType T} now (call : Call W T)
    σ p cb1 res err open σ2 :
  GoTypeLawful T →
  cb_onRequest now (breaker σ) = (Ret (p, None), cb1) →
  call (set_breaker cb1 σ) = (Ret (res, err, open), σ2) →
  wellFormed (breaker σ2) → open = No ∨ open = Yes →
  Execute now call σ
  = (Ret (res, err), set_breaker (cb_onResult p open (breaker σ2)).2 σ2).
Proof. apply Execute_passes_result. Qed.


(** X15: a transition made while the call is in flight.  If the breaker's
    current object is no longer the admitting one when the function
    returns, [ExecuteAny] returns the function's result and error and
    leaves the whole machine, counters included, as the function left it:
    the outcome is counted nowhere. *)
Theorem X15_outcome_of_superseded_sojourn_is_dropped {V} now
    (call : Call W (any V)) σ p cb1 result err open σ2 :
  cb_onRequest now (breaker σ) = (Ret (p, None), cb1) →
  call (set_breaker cb1 σ) = (Ret (result, err, open), σ2) →
  state (breaker σ2) ≠ p →
  ExecuteAny now call σ = (Ret (result, err), σ2).
Proof. apply ExecuteAny_stale. Qed.
End ExecuteProperties.

Lemma X13_execute_passes_result_witness :
  let call : Call nat (option error) := returning None None No in
  GoTypeLawful (option error)
  ∧ Execute 5 call (program demoBreaker)
    = (Ret (None, None),
       mkMachine
         (recordSuccess (mkState StateClosed (seconds 10) 0 0 0) demoBreaker)
         1%nat).
Proof.
  intros call.
  assert (Hlaw : GoTypeLawful (option error)).
  { intros x Hx. simpl in Hx. by apply bool_decide_eq_true in Hx. }
  split; [exact Hlaw|].
  rewrite (X13_execute_passes_result 5 call (program demoBreaker) 0%nat
             demoBreaker None None No (mkMachine demoBreaker 1%nat) Hlaw
             eq_refl eq_refl).
  - reflexivity.
  - by eexists.
  - by left.
Defined.


Lemma X15_outcome_of_superseded_sojourn_is_dropped_witness :
  let cb := breakerIn demoSettings (mkState StateClosed (seconds 10) 0 40 60) in
  let tripped := (cb_onRequest (seconds 11) cb).2 in
  let call : Call nat (any Z) :=
    λ σ, (Ret (box 7, None, Yes),
          mkMachine (cb_onRequest (seconds 11) (breaker σ)).2 (S (world σ))) in
  (cb_onRequest (seconds 5) cb).1 = Ret (1%nat, None)
  ∧ state tripped = 2%nat
  ∧ ExecuteAny (seconds 5) call (program cb)
    = (Ret (box 7, None), mkMachine tripped 1%nat).
Proof.
  intros cb tripped call. split; [reflexivity|]. split; [reflexivity|].
  apply (X15_outcome_of_superseded_sojourn_is_dropped (seconds 5) call
           (program cb) 1%nat cb (box 7) None Yes (mkMachine tripped 1%nat));
    [reflexivity|reflexivity|by vm_compute].
Defined.

(** ** One counter per call *)

Section Accounting.
Context {W : Type}.
Implicit Types (σ : Machine W) (cb : CircuitBreaker) (p : ptr).

(** The two counters the code writes, taken together. *)
Lemma ExecuteAny_counts_one {V} now (call : Call W (any V)) σ :
  wellFormed (breaker σ) →
  (∀ σ1, breaker (call σ1).2 = breaker σ1) →
  (∀ e, (cb_onRequest now (breaker σ)).1 ≠ Panic e) →
  let cb := breaker σ in
  let cb' := breaker (ExecuteAny now call σ).2 in
  (successCounter cb' = successCounter cb + 1
   ∧ fastFailCounter cb' = fastFailCounter cb
   ∨ successCounter cb' = successCounter cb
     ∧ fastFailCounter cb' = fastFailCounter cb + 1)
  ∧ failureCounter cb' = failureCounter cb.
Proof.
  intros [st Hcur] Hcall Hok cb cb'. subst cb cb'.
  destruct (cb_onRequest now (breaker σ)) as [[[p err]|e] cb1] eqn:Hreq;
    [|by destruct (Hok e)].
  destruct (evaluation_accounts now (breaker σ) st p err cb1 Hcur Hreq)
    as (Hff & Hs & Hf & _).
  destruct err as [e|].
  { rewrite (ExecuteAny_rejected now call σ p e cb1 Hreq). simpl.
    split; [right; lia|done]. }
  destruct (onRequest_current now (breaker σ) p None cb1 Hreq)
    as [Hp [st1 Hst1]].
  specialize (Hcall (set_breaker cb1 σ)).
  destruct (call (set_breaker cb1 σ)) as [[[[result err] open]|e] σ2]
    eqn:Hrun; simpl in Hcall.
  - assert (Hcur2 : current (breaker σ2) = Some st1)
      by (rewrite Hcall; unfold current; by rewrite Hp).
    assert (Hp2 : state (breaker σ2) = p) by (by rewrite Hcall).
    destruct (decide (open = No)) as [->|HNo];
      [|destruct (decide (open = Yes)) as [->|HYes]].
    + rewrite (ExecuteAny_returns now call σ p cb1 result err No σ2
                 (recordSuccess st1 (breaker σ2)) Hreq Hrun).
      * simpl. rewrite Hcall. split; [left; lia|done].
      * rewrite <- Hp2. by apply onResult_No.
    + rewrite (ExecuteAny_returns now call σ p cb1 result err Yes σ2
                 (recordFailure st1 (breaker σ2)) Hreq Hrun).
      * simpl. rewrite Hcall. split; [right; lia|done].
      * rewrite <- Hp2. by apply onResult_Yes.
    + rewrite (ExecuteAny_unknown_overloading now call σ p cb1 result err
                 open σ2 st1 Hreq Hrun Hp2 Hcur2 HNo HYes).
      simpl. rewrite Hcall. split; [right; lia|done].
  - assert (Hcur2 : current (breaker σ2) = Some st1)
      by (rewrite Hcall; unfold current; by rewrite Hp).
    assert (Hp2 : state (breaker σ2) = p) by (by rewrite Hcall).
    rewrite (ExecuteAny_call_panics now call σ p cb1 e σ2
               (recordFailure st1 (breaker σ2)) Hreq Hrun).
    + simpl. rewrite Hcall. split; [right; lia|done].
    + rewrite <- Hp2. by apply onResult_Yes.
Qed.
End Accounting.

(** X16: one counter per call, as the code has it.  When nothing changes
    the breaker while the wrapped function runs (neither the function
    itself nor a request, report or settings change of another goroutine)
    and the admission evaluation does not panic, a call of [Execute] adds
    exactly one to exactly one of the success and fast-fail counters,
    whether the request is rejected or the function returns with any
    classification or panics, and never touches the failure counter. *)
Theorem X16_one_counter_per_call {W} `{GoType T} now (call : Call W T)
    (σ : Machine W) :
  wellFormed (breaker σ) →
  (∀ σ1, breaker (call σ1).2 = breaker σ1) →
  (∀ e, (cb_onRequest now (breaker σ)).1 ≠ Panic e) →
  let cb := breaker σ in
  let cb' := breaker (Execute now call σ).2 in
  (successCounter cb' = successCounter cb + 1
   ∧ fastFailCounter cb' = fastFailCounter cb
   ∨ successCounter cb' = successCounter cb
     ∧ fastFailCounter cb' = fastFailCounter cb + 1)
  ∧ failureCounter cb' = failureCounter cb.
Proof.
  intros Hwf Hcall Hok cb cb'. subst cb cb'. rewrite Execute_final.
  apply ExecuteAny_counts_one; try done.
  intros σ1. rewrite boxCall_run. specialize (Hcall σ1).
  by destruct (call σ1) as [[[[res err] open]|e] σ2].
Qed.

Lemma X16_one_counter_per_call_witness :
  let cb' := breaker (Execute 5 (panicking (R:=Z) "boom")
                        (program demoBreaker)).2 in
  wellFormed demoBreaker
  ∧ (successCounter cb' = 1 ∧ fastFailCounter cb' = 0
     ∨ successCounter cb' = 0 ∧ fastFailCounter cb' = 1)
  ∧ failureCounter cb' = 0.
Proof.
  intros cb'.
  assert (Hwf : wellFormed demoBreaker) by (by eexists).
  assert (Hok : ∀ e, (cb_onRequest 5 demoBreaker).1 ≠ Panic e)
    by (intros e; vm_compute; discriminate).
  split; [exact Hwf|].
  exact (X16_one_counter_per_call 5 (panicking (R:=Z) "boom")
           (program demoBreaker) Hwf (λ _, eq_refl) Hok).
Defined.

(** ** The metric label *)

Lemma replacer_byte_clean c :
  replacer_byte c ≠ " "%char ∧ replacer_byte c ≠ "-"%char.
Proof.
  unfold replacer_byte.
  destruct (Ascii.eqb c " ") eqn:Hsp; [by split|].
  destruct (Ascii.eqb c "-") eqn:Hhy; [by split|].
  apply Ascii.eqb_neq in Hsp, Hhy. by split.
Qed.

Lemma replacer_byte_fixed c :
  c ≠ " "%char → c ≠ "-"%char → replacer_byte c = c.
Proof.
  intros Hsp Hhy. unfold replacer_byte.
  apply Ascii.eqb_neq in Hsp, Hhy. by rewrite Hsp, Hhy.
Qed.

(** X17: the metric label made from a breaker's name.  [replacer.Replace]
    keeps the length of the name, leaves no space and no hyphen in it, only
    changes bytes that were a space or a hyphen (into an underscore), and
    applying it a second time changes nothing. *)
Theorem X17_metric_name_is_normalised (s : string) :
  String.length (replacer_Replace s) = String.length s
  ∧ (∀ (i : nat) (c : Ascii.ascii), String.get i (replacer_Replace s) = Some c →
       c ≠ " "%char ∧ c ≠ "-"%char
       ∧ ∃ c0, String.get i s = Some c0
           ∧ (c0 = c ∨ (c = "_"%char ∧ (c0 = " "%char ∨ c0 = "-"%char))))
  ∧ replacer_Replace (replacer_Replace s) = replacer_Replace s.
Proof.
  split; [|split].
  - induction s as [|c s IH]; simpl; [done|]. by rewrite IH.
  - induction s as [|c0 s IH]; intros i c Hget; simpl in Hget; [done|].
    destruct i as [|i].
    + simplify_eq. destruct (replacer_byte_clean c0) as [Hsp Hhy].
      split; [done|]. split; [done|]. exists c0. split; [done|].
      unfold replacer_byte.
      destruct (Ascii.eqb c0 " ") eqn:H1.
      { apply Ascii.eqb_eq in H1. right. by split; [|left]. }
      destruct (Ascii.eqb c0 "-") eqn:H2.
      { apply Ascii.eqb_eq in H2. right. by split; [|right]. }
      by left.
    + by apply IH.
  - induction s as [|c s IH]; simpl; [done|].
    rewrite IH. f_equal.
    destruct (replacer_byte_clean c) as [Hsp Hhy].
    by apply replacer_byte_fixed.
Qed.

Lemma X17_metric_name_is_normalised_witness :
  replacer_Replace "pd leader-tso" = "pd_leader_tso"
  ∧ String.get 2 (replacer_Replace "pd leader-tso") = Some "_"%char
  ∧ String.get 2 "pd leader-tso" = Some " "%char.
Proof.
  split; [reflexivity|].
  destruct (X17_metric_name_is_normalised "pd leader-tso") as (_ & Hget & _).
  destruct (Hget 2%nat "_"%char eq_refl) as (_ & _ & c0 & Hc0 & _).
  split; [reflexivity|]. rewrite Hc0. simpl in Hc0. by simplify_eq.
Defined.

(** ** A cooldown and a recovery, request by request *)

Lemma cooldown_rejects nows cb st :
  current cb = Some st → stateType st = StateOpen →
  Forall (λ now, now ≤ end_ st) nows →
  ∃ cb', requests nows cb
         = (replicate (length nows) (Ret (state cb, Some ErrOpenState)), cb')
    ∧ heap cb' = heap cb ∧ state cb' = state cb ∧ config cb' = config cb
    ∧ successCounter cb' = successCounter cb
    ∧ fastFailCounter cb' = fastFailCounter cb + Z.of_nat (length nows).
Proof.
  intros Hcur Hty Hall. revert cb Hcur.
  induction Hall as [|now nows Hnow _ IH]; intros cb Hcur.
  { exists cb. simpl. repeat split; try done. lia. }
  simpl length. simpl requests.
  rewrite (open_cooling now cb st Hcur Hty Hnow).
  destruct (IH (fastFailCounter_Inc cb) Hcur)
    as (cb' & Hreq & Hh & Hst & Hcfg & Hs & Hff).
  exists cb'. rewrite Hreq. simpl in *. repeat split; try done. lia.
Qed.

(** X18: a whole cooldown.  Every request evaluated up to the deadline of
    an Open object is rejected with the sentinel and changes nothing but the
    fast-fail counter, which grows by the number of requests; the request
    that follows, if it comes after the deadline, is let through and makes
    a new HalfOpen object with [pendingCount = 1] current. *)
Theorem X18_cooldown_then_probe nows late cb st :
  current cb = Some st → stateType st = StateOpen →
  Forall (λ now, now ≤ end_ st) nows → end_ st < late →
  ∃ cb', requests (nows ++ [late]) cb
         = (replicate (length nows) (Ret (state cb, Some ErrOpenState))
            ++ [Ret (length (heap cb), None)], cb')
    ∧ heap cb' = heap cb ++ [mkState StateHalfOpen time.zero 1 0 0]
    ∧ state cb' = length (heap cb)
    ∧ fastFailCounter cb' = fastFailCounter cb + Z.of_nat (length nows)
    ∧ successCounter cb' = successCounter cb.
Proof.
  intros Hcur Hty Hall Hlate.
  destruct (cooldown_rejects nows cb st Hcur Hty Hall)
    as (cb1 & Hreq & Hh & Hst & Hcfg & Hs & Hff).
  assert (Hcur1 : current cb1 = Some st)
    by (unfold current; by rewrite Hh, Hst).
  exists (transition late StateHalfOpen cb1).
  rewrite requests_app, Hreq. simpl.
  rewrite (open_cooled late cb1 st Hcur1 Hty Hlate). simpl.
  rewrite Hh. by repeat split.
Qed.

Lemma X18_cooldown_then_probe_witness :
  let st := mkState StateOpen (seconds 40) 0 0 0 in
  let cb := breakerIn demoSettings st in
  (requests [seconds 20; seconds 30; seconds 40; seconds 41] cb).1
  = [Ret (1%nat, Some ErrOpenState); Ret (1%nat, Some ErrOpenState);
     Ret (1%nat, Some ErrOpenState); Ret (2%nat, None)].
Proof.
  intros st cb.
  destruct (X18_cooldown_then_probe [seconds 20; seconds 30; seconds 40]
              (seconds 41) cb st eq_refl eq_refl) as (cb' & Heq & _).
  - repeat (apply List.Forall_cons; [by vm_compute|]). apply List.Forall_nil.
  - by vm_compute.
  - exact (f_equal fst Heq).
Defined.

Lemma tally_replicate_No (k : nat) :
  tally Yes (replicate k No) = 0 ∧ Forall (λ o, o = No ∨ o = Yes) (replicate k No).
Proof.
  induction k as [|k [IH1 IH2]]; [by split|]. simpl replicate. split.
  - rewrite tally_cons. by case_decide.
  - apply List.Forall_cons; [by left|done].
Qed.

(** X19: a whole recovery.  With [HalfOpenSuccessCount = n], [0 < n < 2^32]:
    the first [n] requests after the cooldown of an Open object are all let
    through as probes of one new HalfOpen object; once all [n] have
    reported success, the next request is let through into a fresh Closed
    sojourn ending at [now + ErrorRateWindow]. *)
Theorem X19_recovery_after_successful_probes t0 (rest : list time.Time) now cb st :
  current cb = Some st → stateType st = StateOpen → end_ st < t0 →
  0 < HalfOpenSuccessCount (config cb) < 2 ^ 32 →
  Z.of_nat (S (length rest)) = HalfOpenSuccessCount (config cb) →
  let p := length (heap cb) in
  ∃ cb2, requests (t0 :: rest) cb
         = (replicate (S (length rest)) (Ret (p, None)), cb2)
    ∧ let cb3 := afterAll (Report p <$> replicate (S (length rest)) No) cb2 in
      cb_onRequest now cb3 = (Ret (S p, None), transition now StateClosed cb3)
      ∧ current (transition now StateClosed cb3)
        = Some (mkState StateClosed (now + ErrorRateWindow (config cb)) 0 0 0).
Proof.
  intros Hcur Hty Ht0 Hn Hlen p.
  set (cb1 := transition t0 StateHalfOpen cb).
  assert (Hcur1 : current cb1 = Some (mkState StateHalfOpen time.zero 1 0 0))
    by apply current_transition.
  destruct (probes_pass rest cb1 _ Hcur1 eq_refl eq_refl eq_refl)
    as (cb2 & Hreq & Hst & Hcfg & Hff & Hc & Hheap);
    try (unfold cb1, time.Time in *; simpl; lia).
  exists cb2. split.
  { simpl requests. rewrite (open_cooled t0 cb st Hcur Hty Ht0).
    fold cb1. by rewrite Hreq. }
  cbv zeta. simpl in Hst, Hcfg, Hc.
  destruct (tally_replicate_No (S (length rest))) as [Hyes Hvalid].
  pose proof (probe_outcomes_decide (replicate (S (length rest)) No) now cb2 _
                Hc eq_refl eq_refl eq_refl Hvalid) as Hdec.
  cbv zeta in Hdec. rewrite Hst in Hdec. fold p in Hdec.
  destruct Hdec as [_ Hclose]; [rewrite length_replicate; lia|].
  rewrite length_replicate, Hcfg, Hheap in Hclose.
  specialize (Hclose Hyes Hlen).
  assert (Hp : length (heap cb1) = S p)
    by (unfold cb1, transition; simpl; rewrite length_app; simpl; lia).
  rewrite Hp in Hclose. split; [exact Hclose|].
  rewrite current_transition.
  pose proof (reports_add_up (replicate (S (length rest)) No) cb2 _ Hc) as Hrep.
  cbv zeta in Hrep. rewrite Hst in Hrep. fold p in Hrep.
  destruct Hrep as (_ & _ & _ & _ & _ & Hcfg3); [simpl; lia..|done|].
  unfold newStateValue, time.Add. by rewrite Hcfg3, Hcfg.
Qed.

Lemma X19_recovery_after_successful_probes_witness :
  let st := mkState StateOpen (seconds 40) 0 0 0 in
  let cb := breakerIn demoSettings st in
  ∃ cb2,
    requests [seconds 41; seconds 42; seconds 43] cb
    = ([Ret (2%nat, None); Ret (2%nat, None); Ret (2%nat, None)], cb2)
    ∧ (cb_onRequest (seconds 50)
         (afterAll (Report 2%nat <$> [No; No; No]) cb2)).1
      = Ret (3%nat, None).
Proof.
  intros st cb.
  destruct (X19_recovery_after_successful_probes (seconds 41)
              [seconds 42; seconds 43] (seconds 50) cb st eq_refl eq_refl)
    as (cb2 & Hreq & Hclose & _); [by vm_compute..|reflexivity|].
  exists cb2. split; [exact Hreq|]. exact (f_equal fst Hclose).
Defined.

(** ** From construction on *)

Lemma newest_step ev cb :
  S (state cb) = length (heap cb) →
  S (state (after ev cb)) = length (heap (after ev cb)).
Proof.
  intros Hnew.
  assert (Hwf : wellFormed cb)
    by (apply lookup_lt_is_Some; lia).
  destruct Hwf as [st Hcur].
  destruct ev as [now|s open|apply]; simpl; [| |done].
  - onRequest_by_cases now cb st Hcur; rewrite Hr; simpl;
      rewrite ?length_app, ?length_insert; simpl; lia.
  - destruct (onResult_cases s open cb st Hcur)
      as [Hr|[(_ & _ & Hr)|(_ & _ & Hr)]]; rewrite Hr; simpl;
      rewrite ?length_insert; lia.
Qed.

(** X20: a breaker made by [NewCircuitBreaker] starts on a Closed object
    whose window ends [ErrorRateWindow] after the creation time and whose
    pending, success and failure counts are 0; and after any sequence of
    requests, reports and settings changes its current object is the one
    created last, so every other object of the store is a superseded
    one. *)
Theorem X20_current_object_is_the_newest evs now nm cfg :
  let cb0 := NewCircuitBreaker now nm cfg in
  current cb0 = Some (mkState StateClosed (now + ErrorRateWindow cfg) 0 0 0)
  ∧ S (state (afterAll evs cb0)) = length (heap (afterAll evs cb0))
  ∧ wellFormed (afterAll evs cb0).
Proof.
  intros cb0. split; [done|].
  assert (Hnew : ∀ cb, S (state cb) = length (heap cb) →
                 S (state (afterAll evs cb)) = length (heap (afterAll evs cb))).
  { induction evs as [|ev evs IH]; intros cb Hcb; [done|].
    rewrite afterAll_cons. by apply IH, newest_step. }
  specialize (Hnew cb0 eq_refl). split; [exact Hnew|].
  apply lookup_lt_is_Some. lia.
Qed.
